(** * Solenoid activation-cycle controller: ts_test_controller.py

    A shallow embedding of [Controller_Script/ts_test_controller.py] and the
    properties of its scheduling / override loop.

    Conventions of the embedding.

    - Python floats that hold times are fixed-point integers with six
      decimals: [time.time()] is a count of microseconds, and
      [command_cycle_period] (minutes) is a count of millionths of a minute,
      so that [command_cycle_period*60] is a count of microseconds and
      [command_cycle_period*60/2] is exact.
    - A [datetime.datetime] is represented by the number of microseconds
      since 0001-01-01 00:00:00, the quantity CPython's datetime arithmetic
      works on (proleptic Gregorian ordinal and time of day); its calendar
      fields are computed the way CPython's [_ord2ymd] does.
    - The outside world (system clock, keyboard, standard input, serial
      device, file system) is an oracle [Env] read through cursors kept in a
      [World], which also collects everything the program outputs.
    - Loops take fuel; running out of fuel is an outcome of its own. *)

From Stdlib Require Import ZArith List String Ascii Lia Bool DecimalString.
From Stdlib.Strings Require Import Byte.
From stdpp Require Import base gmap strings list sorting.

Local Open Scope string_scope.
Local Open Scope list_scope.
Local Open Scope Z_scope.

(** ** Calendar arithmetic of the datetime library *)

Module Calendar.

Definition DAYS_IN_MONTH : list Z :=
  [-1; 31; 28; 31; 30; 31; 30; 31; 31; 30; 31; 30; 31].

Definition DAYS_BEFORE_MONTH : list Z :=
  [-1; 0; 31; 59; 90; 120; 151; 181; 212; 243; 273; 304; 334].

Definition tbl (t : list Z) (i : Z) : Z := nth (Z.to_nat i) t (-1).

Definition days_before_year (year : Z) : Z :=
  let y := year - 1 in y * 365 + y / 4 - y / 100 + y / 400.

Definition DI400Y : Z := Eval cbv in days_before_year 401.
Definition DI100Y : Z := Eval cbv in days_before_year 101.
Definition DI4Y : Z := Eval cbv in days_before_year 5.

Definition MAXORDINAL : Z := 3652059.

Definition b2z (b : bool) : Z := if b then 1 else 0.

(** [_ord2ymd]: ordinal (1 = 0001-01-01) to (year, month, day). *)
Definition ord2ymd (n0 : Z) : Z * Z * Z :=
  let n := n0 - 1 in
  let n400 := n / DI400Y in
  let n := n mod DI400Y in
  let year := n400 * 400 + 1 in
  let n100 := n / DI100Y in
  let n := n mod DI100Y in
  let n4 := n / DI4Y in
  let n := n mod DI4Y in
  let n1 := n / 365 in
  let n := n mod 365 in
  let year := year + n100 * 100 + n4 * 4 + n1 in
  if (n1 =? 4) || (n100 =? 4) then (year - 1, 12, 31)
  else
    let leapyear := (n1 =? 3) && (negb (n4 =? 24) || (n100 =? 3)) in
    let month := Z.shiftr (n + 50) 5 in
    let preceding := tbl DAYS_BEFORE_MONTH month + b2z ((2 <? month) && leapyear) in
    let '(month, preceding) :=
      if n <? preceding
      then (month - 1,
            preceding - (tbl DAYS_IN_MONTH (month - 1)
                         + b2z ((month - 1 =? 2) && leapyear)))
      else (month, preceding) in
    (year, month, n - preceding + 1).

Definition US_PER_SECOND : Z := 1000000.
Definition US_PER_DAY : Z := 86400 * US_PER_SECOND.

(** Microseconds from 0001-01-01 00:00:00 to 1970-01-01 00:00:00. *)
Definition EPOCH_US : Z := 719162 * US_PER_DAY.

(** One past the last representable instant, 9999-12-31 23:59:59.999999. *)
Definition MAX_US : Z := MAXORDINAL * US_PER_DAY.

Record datetime := mk_datetime { dt_us : Z }.

Definition dt_valid (d : datetime) : Prop := 0 <= dt_us d < MAX_US.

Definition dt_validb (d : datetime) : bool :=
  (0 <=? dt_us d) && (dt_us d <? MAX_US).

Definition ordinal (d : datetime) : Z := dt_us d / US_PER_DAY + 1.
Definition second_of_day (d : datetime) : Z :=
  (dt_us d mod US_PER_DAY) / US_PER_SECOND.

Definition year (d : datetime) : Z := fst (fst (ord2ymd (ordinal d))).
Definition month (d : datetime) : Z := snd (fst (ord2ymd (ordinal d))).
Definition day (d : datetime) : Z := snd (ord2ymd (ordinal d)).
Definition hour (d : datetime) : Z := second_of_day d / 3600.
Definition minute (d : datetime) : Z := (second_of_day d mod 3600) / 60.
Definition second (d : datetime) : Z := (second_of_day d mod 3600) mod 60.

(** Decimal digits and zero padding, for field values in their calendar
    range (which every valid datetime has). *)
Definition digit (d : Z) : ascii := ascii_of_nat (Z.to_nat (48 + d)).

Definition zfill2 (n : Z) : string :=
  String (digit (n / 10)) (String (digit (n mod 10)) "").

Definition zfill4 (n : Z) : string :=
  String (digit (n / 1000))
    (String (digit (n / 100 mod 10)) (zfill2 (n mod 100))).

(** The strftime directives the program uses; any other directive is left
    in place. *)
Definition directive (c : ascii) (d : datetime) : string :=
  if Ascii.eqb c "Y" then zfill4 (year d)
  else if Ascii.eqb c "m" then zfill2 (month d)
  else if Ascii.eqb c "d" then zfill2 (day d)
  else if Ascii.eqb c "H" then zfill2 (hour d)
  else if Ascii.eqb c "M" then zfill2 (minute d)
  else if Ascii.eqb c "S" then zfill2 (second d)
  else String "%" (String c "").

Fixpoint strftime (d : datetime) (fmt : string) : string :=
  match fmt with
  | "" => ""
  | String c rest =>
      if Ascii.eqb c "%" then
        match rest with
        | "" => String c ""
        | String k rest' => directive k d +:+ strftime d rest'
        end
      else String c (strftime d rest)
  end.

End Calendar.

Import Calendar.

(** ** What a printed timestamp looks like *)

Definition is_digit (c : ascii) : bool :=
  (48 <=? nat_of_ascii c)%nat && (nat_of_ascii c <=? 57)%nat.

(** A layout such as YYYY-MM-DD HH:MM:SS: a letter stands for one decimal
    digit, any other character for itself. *)
Definition is_placeholder (p : ascii) : bool :=
  existsb (Ascii.eqb p) ["Y"; "M"; "D"; "H"; "S"]%char.

Fixpoint matches_layout (layout s : string) : bool :=
  match layout, s with
  | "", "" => true
  | String p layout', String c s' =>
      (if is_placeholder p then is_digit c else Ascii.eqb p c)
      && matches_layout layout' s'
  | _, _ => false
  end.

Definition is_timestamp (s : string) : bool :=
  matches_layout "YYYY-MM-DD HH:MM:SS" s.

(** Month and day from the day of the year, the tail of [ord2ymd]. *)
Definition month_day (n : Z) (leapyear : bool) : Z * Z :=
  let month := Z.shiftr (n + 50) 5 in
  let preceding :=
    tbl DAYS_BEFORE_MONTH month + b2z ((2 <? month) && leapyear) in
  let '(month, preceding) :=
    if n <? preceding
    then (month - 1,
          preceding - (tbl DAYS_IN_MONTH (month - 1)
                       + b2z ((month - 1 =? 2) && leapyear)))
    else (month, preceding) in
  (month, n - preceding + 1).

Definition month_day_ok (md : Z * Z) : bool :=
  (1 <=? fst md) && (fst md <=? 12) && (1 <=? snd md) && (snd md <=? 31).

(** ** The outside world *)

Inductive exn :=
  | SerialOpenError     (* serial.Serial(port, baud) could not open the port *)
  | SerialWriteError    (* ser.write failed *)
  | OverflowError       (* date value out of range *)
  | ValueError          (* columns of unequal length; year out of range *)
  | KeyError            (* missing dictionary key *)
  | OSError.            (* the file could not be written *)

Record DataFrame := mk_frame {
  columns : list string;
  data : list (list string)
}.

(** What a CSV file holds: its records, the header first. *)
Abbreviation csv := (list (list string)).

Inductive console_event :=
  | System (cmd : string)
  | PrintStr (s : string)
  | PrintFrame (df : DataFrame).

(** The responses of the environment, indexed by the number of earlier
    requests of the same kind. *)
Record Env := mk_env {
  clock : nat -> Z;                (* system clock, microseconds since the Unix epoch *)
  utcoffset : Z;                   (* local time minus UTC, microseconds *)
  stdin : nat -> string;           (* lines entered at input() *)
  keyboard : nat -> option byte;   (* the key waiting at each keyboard poll *)
  port_opens : bool;               (* whether the serial port can be opened *)
  ser_accepts : nat -> bool;       (* whether each ser.write succeeds *)
  disk_accepts : nat -> bool       (* whether each file write succeeds *)
}.

Record World := mk_world {
  clock_reads : nat;
  lines_read : nat;
  key_polls : nat;
  ser_calls : nat;
  disk_calls : nat;
  ser_out : list byte;             (* bytes accepted by the serial device *)
  files : gmap string csv;         (* the file system *)
  console : list console_event;    (* console output, oldest first *)
  slept : Z                        (* total time asked of time.sleep, microseconds *)
}.

Definition world0 : World := mk_world 0 0 0 0 0 [] ∅ [] 0.

Inductive outcome (A : Type) :=
  | Ret (a : A) (w : World)
  | Raise (e : exn) (w : World)
  | OutOfFuel (w : World).
Arguments Ret {A} a w.
Arguments Raise {A} e w.
Arguments OutOfFuel {A} w.

Definition M (A : Type) : Type := World -> outcome A.

#[global] Instance M_ret : MRet M := fun A a w => Ret a w.
#[global] Instance M_bind : MBind M := fun A B f m w =>
  match m w with
  | Ret a w' => f a w'
  | Raise e w' => Raise e w'
  | OutOfFuel w' => OutOfFuel w'
  end.

Definition raise {A} (e : exn) : M A := fun w => Raise e w.

(** The world an outcome ends in. *)
Definition final_world {A} (o : outcome A) : World :=
  match o with Ret _ w | Raise _ w | OutOfFuel w => w end.

(** [while cond: body], with fuel. *)
Fixpoint while {St : Type} (fuel : nat) (cond : St -> bool)
    (body : St -> M St) (s : St) : M St :=
  fun w =>
    if cond s then
      match fuel with
      | O => OutOfFuel w
      | S fuel' =>
          match body s w with
          | Ret s' w' => while fuel' cond body s' w'
          | Raise e w' => Raise e w'
          | OutOfFuel w' => OutOfFuel w'
          end
      end
    else Ret s w.

(** The states and worlds at which the iterations of a [while] start. *)
Fixpoint iterations {St : Type} (fuel : nat) (cond : St -> bool)
    (body : St -> M St) (s : St) (w : World) : list (St * World) :=
  if cond s then
    match fuel with
    | O => []
    | S fuel' =>
        (s, w) ::
        match body s w with
        | Ret s' w' => iterations fuel' cond body s' w'
        | _ => []
        end
    end
  else [].

Section Primitives.
Variable env : Env.

Definition time_time : M Z := fun w =>
  Ret (clock env (clock_reads w))
    (mk_world (S (clock_reads w)) (lines_read w) (key_polls w) (ser_calls w)
       (disk_calls w) (ser_out w) (files w) (console w) (slept w)).

(** [datetime.datetime.now()]: the local civil time of a clock reading. *)
Definition datetime_now : M datetime := fun w =>
  let d := mk_datetime (clock env (clock_reads w) + utcoffset env + EPOCH_US) in
  let w' := mk_world (S (clock_reads w)) (lines_read w) (key_polls w)
              (ser_calls w) (disk_calls w) (ser_out w) (files w) (console w)
              (slept w) in
  if dt_validb d then Ret d w' else Raise ValueError w'.

Definition time_sleep (us : Z) : M unit := fun w =>
  Ret tt
    (mk_world (clock_reads w) (lines_read w) (key_polls w) (ser_calls w)
       (disk_calls w) (ser_out w) (files w) (console w) (slept w + us)).

Definition input : M string := fun w =>
  Ret (stdin env (lines_read w))
    (mk_world (clock_reads w) (S (lines_read w)) (key_polls w) (ser_calls w)
       (disk_calls w) (ser_out w) (files w) (console w) (slept w)).

Definition emit (e : console_event) : M unit := fun w =>
  Ret tt
    (mk_world (clock_reads w) (lines_read w) (key_polls w) (ser_calls w)
       (disk_calls w) (ser_out w) (files w) (console w ++ [e]) (slept w)).

Definition print (s : string) : M unit := emit (PrintStr s).
Definition print_frame (df : DataFrame) : M unit := emit (PrintFrame df).
Definition os_system (cmd : string) : M unit := emit (System cmd).

(** [msvcrt.kbhit()]: whether a key is waiting.  A poll that finds no key
    is over; a key found stays until [msvcrt.getch()] takes it. *)
Definition kbhit : M bool := fun w =>
  match keyboard env (key_polls w) with
  | Some _ => Ret true w
  | None =>
      Ret false
        (mk_world (clock_reads w) (lines_read w) (S (key_polls w))
           (ser_calls w) (disk_calls w) (ser_out w) (files w) (console w)
           (slept w))
  end.

(** [msvcrt.getch()] blocks until a key is there; with no key waiting it
    does not come back. *)
Definition getch : M byte := fun w =>
  match keyboard env (key_polls w) with
  | Some b =>
      Ret b
        (mk_world (clock_reads w) (lines_read w) (S (key_polls w))
           (ser_calls w) (disk_calls w) (ser_out w) (files w) (console w)
           (slept w))
  | None => OutOfFuel w
  end.

Record Serial := mk_serial { ser_port : string; ser_baud : Z }.

Definition serial_Serial (port : string) (baud : Z) : M Serial := fun w =>
  if port_opens env then Ret (mk_serial port baud) w
  else Raise SerialOpenError w.

Definition ser_write (ser : Serial) (b : byte) : M unit := fun w =>
  if ser_accepts env (ser_calls w) then
    Ret tt
      (mk_world (clock_reads w) (lines_read w) (key_polls w) (S (ser_calls w))
         (disk_calls w) (ser_out w ++ [b]) (files w) (console w) (slept w))
  else
    Raise SerialWriteError
      (mk_world (clock_reads w) (lines_read w) (key_polls w) (S (ser_calls w))
         (disk_calls w) (ser_out w) (files w) (console w) (slept w)).

(** [df.to_csv(path, index=False)]: the file at [path] is replaced by the
    header record and the data records. *)
Definition to_csv (df : DataFrame) (path : string) : M unit := fun w =>
  if disk_accepts env (disk_calls w) then
    Ret tt
      (mk_world (clock_reads w) (lines_read w) (key_polls w) (ser_calls w)
         (S (disk_calls w)) (ser_out w)
         (<[path := columns df :: data df]> (files w)) (console w) (slept w))
  else
    Raise OSError
      (mk_world (clock_reads w) (lines_read w) (key_polls w) (ser_calls w)
         (S (disk_calls w)) (ser_out w) (files w) (console w) (slept w)).
End Primitives.

(** ** Library values: timedelta, dict, DataFrame *)

(** [datetime.timedelta], in microseconds; its days must stay within
    999999999 in magnitude. *)
Definition timedelta (us : Z) : M Z := fun w =>
  if (-999999999 <=? us / US_PER_DAY) && (us / US_PER_DAY <=? 999999999)
  then Ret us w else Raise OverflowError w.

(** [datetime + timedelta]. *)
Definition datetime_add (d : datetime) (td : Z) : M datetime := fun w =>
  let r := mk_datetime (dt_us d + td) in
  if (0 <? ordinal r) && (ordinal r <=? MAXORDINAL) then Ret r w
  else Raise OverflowError w.

(** A Python dict from column names to columns, in insertion order. *)
Definition dict := list (string * list string).

Fixpoint dict_get (d : dict) (k : string) : option (list string) :=
  match d with
  | [] => None
  | (k', v) :: d' => if String.eqb k' k then Some v else dict_get d' k
  end.

Fixpoint dict_set (d : dict) (k : string) (v : list string) : dict :=
  match d with
  | [] => [(k, v)]
  | (k', v') :: d' =>
      if String.eqb k' k then (k', v) :: d' else (k', v') :: dict_set d' k v
  end.

(** [dic[k] += xs] *)
Definition dict_iadd (d : dict) (k : string) (xs : list string) : M dict :=
  match dict_get d k with
  | Some v => mret (dict_set d k (v ++ xs))
  | None => raise KeyError
  end.

Fixpoint transpose (n : nat) (cols : list (list string)) : list (list string) :=
  match n with
  | O => []
  | S n' => map (hd "") cols :: transpose n' (map (@tl string) cols)
  end.

(** [pd.DataFrame(dic)]: all columns must have the same length. *)
Definition pd_DataFrame (d : dict) : M DataFrame :=
  match map snd d with
  | [] => mret (mk_frame [] [])
  | c :: cs =>
      if forallb (fun c' => Nat.eqb (length c') (length c)) cs
      then mret (mk_frame (map fst d) (transpose (length c) (c :: cs)))
      else raise ValueError
  end.

(** ** The program *)

Definition nl : string := String (ascii_of_nat 10) "".

(** [get_timestamp(current_time)] *)
Definition get_timestamp (current_time : datetime) : string :=
  strftime current_time "%Y-%m-%d %H:%M:%S".

(** The local variables of [logger] that its loop reads and writes. *)
Record loop_state := mk_state {
  toggle : Z;
  dic : dict;
  last_state_change_time : Z;
  cycle_n : Z
}.

Section Program.
Variable env : Env.

(** [change_system_state(ser, toggle, dic, command_cycle_period, writeFile)] *)
Definition change_system_state (ser : Serial) (toggle : Z) (dic : dict)
    (command_cycle_period : Z) (writeFile : string) : M (Z * dict * Z) :=
  let cmd := x30 in
  ser_write env ser cmd;;
  last_state_change_time ← time_time env;
  current_time ← datetime_now env;
  let timestamp := get_timestamp current_time in
  dic ← dict_iadd dic "Timestamp" [timestamp];
  delta ← timedelta (command_cycle_period * 60);
  next_state_change_time ← datetime_add current_time delta;
  if negb (toggle =? 0) then
    dic ← dict_iadd dic "System State" ["Off"];
    df ← pd_DataFrame dic;
    to_csv env df writeFile;;
    os_system "cls";;
    print_frame df;;
    let toggle := 0 in
    print (nl +:+ "System Deactivated." +:+ nl
           +:+ "System will automatically activate at "
           +:+ get_timestamp next_state_change_time
           +:+ ", or press 0 to activate system." +:+ nl);;
    mret (toggle, dic, last_state_change_time)
  else
    dic ← dict_iadd dic "System State" ["On"];
    df ← pd_DataFrame dic;
    to_csv env df writeFile;;
    os_system "cls";;
    print_frame df;;
    let toggle := 1 in
    print (nl +:+ "System Activated." +:+ nl
           +:+ "System will automatically deactivate at "
           +:+ get_timestamp next_state_change_time
           +:+ ", or press 0 to deactivate system." +:+ nl);;
    mret (toggle, dic, last_state_change_time).

Definition prompt : string :=
  "Press Enter to initiate activation cycling." +:+ nl.

(** [logger], up to and including the first state change (lines 145-168). *)
Definition logger_start (fuel : nat) (port : string) (baud : Z)
    (command_cycle_period : Z) (writeFile : string) : M (Serial * loop_state) :=
  ser ← serial_Serial env port baud;
  let toggle := 0 in
  let dic := [("Timestamp", []); ("System State", [])] in
  print prompt;;
  cmd ← input env;
  _ ← while fuel (fun cmd => negb (String.eqb cmd ""))
        (fun _ => print prompt;; input env) cmd;
  time_sleep 1000000;;
  '(toggle, dic, last_state_change_time) ←
    change_system_state ser toggle dic command_cycle_period writeFile;
  let cycle_n := 1 in
  mret (ser, mk_state toggle dic last_state_change_time cycle_n).

(** One pass through the body of [while cycle_n < 20] (lines 170-179). *)
Definition loop_body (ser : Serial) (command_cycle_period : Z)
    (writeFile : string) (s : loop_state) : M loop_state :=
  time_sleep 10000;;
  hit ← kbhit env;
  if (hit : bool) return M loop_state then
    cmd ← getch env;
    if Byte.eqb (cmd : byte) x30 return M loop_state then
      '(toggle, dic, last_state_change_time) ←
        change_system_state ser (toggle s) (dic s) command_cycle_period
          writeFile;
      mret (mk_state toggle dic last_state_change_time (cycle_n s))
    else mret s
  else
    now ← time_time env;
    if command_cycle_period * 60 <=? (now : Z) - last_state_change_time s
       return M loop_state then
      '(toggle, dic, last_state_change_time) ←
        change_system_state ser (toggle s) (dic s) command_cycle_period
          writeFile;
      mret (mk_state toggle dic last_state_change_time (cycle_n s + 1))
    else mret s.

Definition logger_loop (fuel : nat) (ser : Serial) (command_cycle_period : Z)
    (writeFile : string) (s : loop_state) : M loop_state :=
  while fuel (fun s => cycle_n s <? 20)
    (loop_body ser command_cycle_period writeFile) s.

(** The final row and the final write (lines 181-188). *)
Definition logger_finish (command_cycle_period : Z) (writeFile : string)
    (s : loop_state) : M unit :=
  now ← datetime_now env;
  delta ← timedelta (command_cycle_period * 60 / 2);
  last_ts ← datetime_add now delta;
  dic ← dict_iadd (dic s) "Timestamp" [get_timestamp last_ts];
  dic ← dict_iadd dic "System State" ["On"];
  df ← pd_DataFrame dic;
  to_csv env df writeFile.

(** [logger(port, baud, command_cycle_period, writeFile)] *)
Definition logger (fuel : nat) (port : string) (baud : Z)
    (command_cycle_period : Z) (writeFile : string) : M unit :=
  '(ser, s) ← logger_start fuel port baud command_cycle_period writeFile;
  s ← logger_loop fuel ser command_cycle_period writeFile s;
  logger_finish command_cycle_period writeFile s.
End Program.


(** ** Vocabulary of the properties *)

(** The table with the rows [log], each a timestamp and a state. *)
Definition table (ts ss : list string) : dict :=
  [("Timestamp", ts); ("System State", ss)].
Definition table_of (log : list (string * string)) : dict :=
  table log.*1 log.*2.
Definition records (log : list (string * string)) : list (list string) :=
  map (fun r => [r.1; r.2]) log.
Definition header : list string := ["Timestamp"; "System State"].
Definition csv_of (log : list (string * string)) : csv := header :: records log.

(** The state a transition from [toggle] is logged with, and the toggle it
    leaves. *)
Definition state_label (toggle : Z) : string :=
  if negb (toggle =? 0) then "Off" else "On".
Definition flip (toggle : Z) : Z := if negb (toggle =? 0) then 0 else 1.

(** The four ways through the loop body: the override key was waiting,
    another key was waiting, the period had elapsed, nothing to do. *)
Inductive label := Manual | KeyIgnored | Auto | Wait.

#[global] Instance label_eq_dec : EqDecision label.
Proof. solve_decision. Defined.

(** The way the iteration that starts in state [s] and world [w] takes,
    read off the key waiting and the next clock reading. *)
Definition branch (env : Env) (command_cycle_period : Z)
    (sw : loop_state * World) : label :=
  match keyboard env (key_polls sw.2) with
  | Some b => if Byte.eqb b x30 then Manual else KeyIgnored
  | None =>
      if command_cycle_period * 60
         <=? clock env (clock_reads sw.2) - last_state_change_time sw.1
      then Auto else Wait
  end.

Definition count_branch (env : Env) (command_cycle_period : Z) (l : label)
    (its : list (loop_state * World)) : nat :=
  length (filter (fun sw => branch env command_cycle_period sw = l) its).

(** The data records of the file at [path] (none if there is no file). *)
Definition persisted (w : World) (path : string) : list (list string) :=
  match files w !! path with
  | Some (_ :: rows) => rows
  | _ => []
  end.

(** The iterations of the loop of [logger] in a run. *)
Definition run_iterations (env : Env) (fuel : nat) (port : string) (baud : Z)
    (command_cycle_period : Z) (writeFile : string) (w0 : World)
    : list (loop_state * World) :=
  match logger_start env fuel port baud command_cycle_period writeFile w0 with
  | Ret (ser, s1) w1 =>
      iterations fuel (fun s => cycle_n s <? 20)
        (loop_body env ser command_cycle_period writeFile) s1 w1
  | _ => []
  end.

(** On, Off, On, ...: the states of [n] transitions that alternate from
    the initial Off. *)
Definition alt_states (n : nat) : list string :=
  map (fun i => if Nat.even i then "On" else "Off") (seq 0 n).

(** Sample environments.  In all of them the operator presses Enter at
    once, the port opens and every write succeeds; the first clock reading
    is 2020-11-04 12:24:05 UTC. *)
Definition T0 : Z := 1604492645000000.

(** No key is ever pressed; each clock reading is a minute after the one
    before. *)
Definition env_plain : Env :=
  mk_env (fun k => T0 + Z.of_nat k * 60000000) 0 (fun _ => "")
    (fun _ => None) true (fun _ => true) (fun _ => true).

(** As [env_plain], but the override key waits at the first poll and the
    key A at the second. *)
Definition env_keys : Env :=
  mk_env (fun k => T0 + Z.of_nat k * 60000000) 0 (fun _ => "")
    (fun k => match k with O => Some x30 | 1%nat => Some x41 | _ => None end)
    true (fun _ => true) (fun _ => true).

(** The clock stands still. *)
Definition env_frozen : Env :=
  mk_env (fun _ => T0) 0 (fun _ => "") (fun _ => None) true
    (fun _ => true) (fun _ => true).

(** A clock read every hundredth of a second, from 12:24:05.29 on. *)
Definition env_ticking : Env :=
  mk_env (fun k => T0 + 290000 + Z.of_nat k * 10000) 0 (fun _ => "")
    (fun _ => None) true (fun _ => true) (fun _ => true).

(** The fifth write to the serial device fails. *)
Definition env_fail5 : Env :=
  mk_env (fun k => T0 + Z.of_nat k * 60000000) 0 (fun _ => "")
    (fun _ => None) true (fun k => negb (Nat.eqb k 4)) (fun _ => true).

(** The runs of the sample environments, with a command cycle period of
    one minute, and of [env_ticking] with one of three seconds. *)
Abbreviation run_plain :=
  (logger env_plain 30 "COM3" 9600 1000000 "log.csv" world0).
Abbreviation run_keys :=
  (logger env_keys 30 "COM3" 9600 1000000 "log.csv" world0).
Abbreviation run_frozen :=
  (logger env_frozen 30 "COM3" 9600 1000000 "log.csv" world0).
Abbreviation run_fail5 :=
  (logger env_fail5 30 "COM3" 9600 1000000 "log.csv" world0).
Abbreviation run_ticking :=
  (logger env_ticking (100 * 100) "COM3" 9600 50000 "log.csv" world0).

(** The loop state and the world in which the loop of [logger] ends. *)
Definition loop_exit (env : Env) (fuel : nat) (port : string) (baud : Z)
    (command_cycle_period : Z) (writeFile : string) (w0 : World)
    : option (loop_state * World) :=
  match logger_start env fuel port baud command_cycle_period writeFile w0 with
  | Ret (ser, s1) w1 =>
      match logger_loop env fuel ser command_cycle_period writeFile s1 w1 with
      | Ret s2 w2 => Some (s2, w2)
      | _ => None
      end
  | _ => None
  end.

(** The timestamp half a command cycle period after the last state change
    of [s]. *)
Definition half_period_after_last_change (env : Env)
    (command_cycle_period : Z) (s : loop_state) : string :=
  get_timestamp
    (mk_datetime (last_state_change_time s + utcoffset env + EPOCH_US
                  + command_cycle_period * 60 / 2)).

(** A loop state after one transition, made at 12:25:05, whose period of a
    minute has elapsed at the first clock reading of the sample
    environments. *)
Definition s_due : loop_state :=
  mk_state 1 (table_of [("2020-11-04 12:25:05", "On")]) (T0 - 60000000) 1.

(** The local civil time of the [k]-th clock reading. *)
Definition now_at (env : Env) (k : nat) : datetime :=
  mk_datetime (clock env k + utcoffset env + EPOCH_US).

(** What a transition that went through has done. *)
Definition fired (env : Env) (wf : string) (log : list (string * string))
    (k : nat) (s : loop_state) (w : World) (s' : loop_state) (w' : World) : Prop :=
  let d := now_at env (S k) in
  let log' := log ++ [(get_timestamp d, state_label (toggle s))] in
  dt_valid d /\
  toggle s' = flip (toggle s) /\
  dic s' = table_of log' /\
  last_state_change_time s' = clock env k /\
  ser_accepts env (ser_calls w) = true /\
  disk_accepts env (disk_calls w) = true /\
  ser_out w' = ser_out w ++ [x30] /\
  files w' = <[wf := csv_of log']> (files w) /\
  clock_reads w' = S (S k) /\
  ser_calls w' = S (ser_calls w) /\
  disk_calls w' = S (disk_calls w).

(** What an iteration without a transition has done. *)
Definition idle (s : loop_state) (w : World) (s' : loop_state) (w' : World)
    : Prop :=
  s' = s /\ ser_out w' = ser_out w /\ files w' = files w /\
  ser_calls w' = ser_calls w /\ disk_calls w' = disk_calls w.

(** Worlds that differ only in what was typed and shown. *)
Definition same_devices (w w' : World) : Prop :=
  clock_reads w' = clock_reads w /\ key_polls w' = key_polls w /\
  ser_calls w' = ser_calls w /\ disk_calls w' = disk_calls w /\
  ser_out w' = ser_out w /\ files w' = files w /\ slept w' = slept w.

(** What holds of the loop state and the world between iterations, in a
    run that started in world [w0]. *)
Definition Inv (w0 : World) (wf : string) (s : loop_state) (w : World)
    : Prop :=
  exists log : list (string * string),
    dic s = table_of log /\
    (0 < length log)%nat /\
    files w !! wf = Some (csv_of log) /\
    ser_out w = ser_out w0 ++ replicate (length log) x30 /\
    ser_calls w = (ser_calls w0 + length log)%nat /\
    disk_calls w = (disk_calls w0 + length log)%nat /\
    log.*2 = alt_states (length log) /\
    toggle s = Z.of_nat (length log) mod 2 /\
    Forall (fun r => is_timestamp r.1 = true) log /\
    1 <= cycle_n s <= 20.

(** ** The rest of the program: the date string and [main] *)

(** [str(n)] for an integer. *)
Definition str (n : Z) : string := NilZero.string_of_int (Z.to_int n).

(** [s[:-k]] for a positive [k]. *)
Definition drop_last (k : nat) (s : string) : string :=
  substring 0 (String.length s - k) s.

(** What [parser.parse_args()] returns; the parser itself is not part of
    the embedding. *)
Record Namespace := mk_args {
  args_write_dir : string;
  args_baud : Z;
  args_COM_Port : string;
  args_cycle_period : string
}.

Section Main.
Variable env : Env.

(** [float(s)]: the number a string stands for, in millionths, or nothing
    when the string is no number.  Python's reading of numbers is not part
    of the embedding. *)
Variable float : string -> option Z.

Definition py_float (s : string) : M Z :=
  match float s with
  | Some x => mret x
  | None => raise ValueError
  end.

(** [get_date_string()]; each [datetime.datetime.now()] is a clock
    reading of its own. *)
Definition get_date_string : M string :=
  now ← datetime_now env;
  let Y := str (year now) in
  now ← datetime_now env;
  let m := str (month now) in
  now ← datetime_now env;
  let d := str (day now) in
  now ← datetime_now env;
  let _m := if month now <? 10 then "0" else "" in
  now ← datetime_now env;
  let _d := if day now <? 10 then "0" else "" in
  let date_string := Y +:+ _m +:+ m +:+ _d +:+ d in
  mret date_string.

(** [main], from the parsed arguments to the call of [logger]
    (lines 215-234). *)
Definition main_setup (args : Namespace) : M (string * Z * Z * string) :=
  let write_directory := args_write_dir args in
  let port := args_COM_Port args in
  let baud := args_baud args in
  x ← py_float (args_cycle_period args);
  let command_cycle_period := x / 2 in
  datestring ← get_date_string;
  let writeFile := write_directory +:+ datestring +:+ "_log.csv" in
  print ("Would you like to write to " +:+ writeFile +:+ "? y/n");;
  answer ← input env;
  writeFile ←
    (if String.eqb (answer : string) "y" return M string then
       print (nl +:+ "Creating new file: " +:+ writeFile +:+ nl);;
       mret writeFile
     else
       print "Enter a filename suffix.";;
       suffix ← input env;
       let writeFile := drop_last 4 writeFile +:+ "_" +:+ suffix +:+ ".csv" in
       print (nl +:+ "Creating new file: " +:+ writeFile +:+ nl);;
       mret writeFile);
  mret (port, baud, command_cycle_period, writeFile).

(** [main()], given the parsed arguments. *)
Definition main (fuel : nat) (args : Namespace) : M unit :=
  '(port, baud, command_cycle_period, writeFile) ← main_setup args;
  logger env fuel port baud command_cycle_period writeFile.
End Main.

(** The default arguments of the parser, and a reading of numbers that
    knows the default cycle period, 2 minutes. *)
Definition default_args : Namespace :=
  mk_args "C:\Data\TSLog\" 9600 "COM3" "2".
Definition float_two (s : string) : option Z :=
  if String.eqb s "2" then Some 2000000 else None.

(** More sample environments.  The operator accepts the default file
    name; the operator declines it and gives the suffix run7; the operator
    types go three times before pressing Enter; the third write to the
    disk fails. *)
Definition env_y : Env :=
  mk_env (fun k => T0 + Z.of_nat k * 60000000) 0
    (fun k => match k with O => "y" | _ => "" end)
    (fun _ => None) true (fun _ => true) (fun _ => true).
Definition env_suffix : Env :=
  mk_env (fun k => T0 + Z.of_nat k * 60000000) 0
    (fun k => match k with O => "n" | 1%nat => "run7" | _ => "" end)
    (fun _ => None) true (fun _ => true) (fun _ => true).
Definition env_chatty : Env :=
  mk_env (fun k => T0 + Z.of_nat k * 60000000) 0
    (fun k => if (k <? 3)%nat then "go" else "")
    (fun _ => None) true (fun _ => true) (fun _ => true).
Definition env_disk3 : Env :=
  mk_env (fun k => T0 + Z.of_nat k * 60000000) 0 (fun _ => "")
    (fun _ => None) true (fun _ => true) (fun k => negb (Nat.eqb k 2)).

(** The clock passes midnight between its second and its third reading:
    0.8 s and 0.9 s after 2020-10-31 23:59:59, then 2020-11-01 00:00:00. *)
Definition env_midnight : Env :=
  mk_env (fun k => 1604188799800000 + Z.of_nat k * 100000) 0 (fun _ => "")
    (fun _ => None) true (fun _ => true) (fun _ => true).

(** The five clock readings from the [k]-th on fall on one day. *)
Definition same_day (env : Env) (k : nat) : Prop :=
  forall i, (i < 5)%nat ->
    ordinal (now_at env (k + i)) = ordinal (now_at env k).

(** No file but the one at [wf] differs between [w0] and [w]. *)
Definition untouched_but (wf : string) (w0 w : World) : Prop :=
  forall path, path <> wf -> files w !! path = files w0 !! path.

(** What a world reached from [w0] by [logger] looks like, however the
    run ends: some number of bytes, all of them the command byte, have
    been sent; the file at [wf] is as it was, with at most one byte sent,
    or holds a table whose rows are within one of the bytes sent. *)
Definition reached (w0 : World) (wf : string) (w : World) : Prop :=
  exists n,
    ser_out w = ser_out w0 ++ replicate n x30 /\
    (files w !! wf = files w0 !! wf /\ (n <= 1)%nat
     \/
     exists log, files w !! wf = Some (csv_of log) /\
                 (n <= length log + 1)%nat /\ (length log <= n + 1)%nat).

(** The rows of the table of [s] are dated by clock readings already
    taken, each by a later reading than the row before. *)
Definition chronicle (env : Env) (s : loop_state) (w : World) : Prop :=
  exists (log : list (string * string)) (ks : list nat),
    dic s = table_of log /\
    log.*1 = map (fun k => get_timestamp (now_at env k)) ks /\
    StronglySorted lt ks /\
    Forall (fun k => (k < clock_reads w)%nat) ks.

(** The clock readings up to the [K]-th are instants the datetime library
    can hold, and so are the instants a command cycle period after them. *)
Definition usable_clock (env : Env) (command_cycle_period : Z) (K : nat)
    : Prop :=
  forall k, (k <= K)%nat ->
    dt_valid (now_at env k) /\
    dt_valid (mk_datetime (dt_us (now_at env k) + command_cycle_period * 60)).

(** The last things put on the console are the table with the rows [log]
    and a message. *)
Definition shows (log : list (string * string)) (w : World) : Prop :=
  exists pre msg,
    console w
    = pre ++ [PrintFrame (mk_frame header (records log)); PrintStr msg].

(** ** Facts about the calendar *)

Module CalendarFacts.

Example ord2ymd_known_days :
  ord2ymd 1 = (1, 1, 1) /\ ord2ymd 719163 = (1970, 1, 1) /\
  ord2ymd 730179 = (2000, 2, 29) /\ ord2ymd 730180 = (2000, 3, 1) /\
  ord2ymd 3652059 = (9999, 12, 31).
Proof. split; [| split; [| split; [| split]]]; vm_compute; reflexivity. Qed.

Example strftime_known_instant :
  strftime (mk_datetime (EPOCH_US + 1604492645999999)) "%Y-%m-%d %H:%M:%S"
  = "2020-11-04 12:24:05".
Proof. vm_compute. reflexivity. Qed.

Lemma digit_is_digit d : 0 <= d < 10 -> is_digit (digit d) = true.
Proof.
  intros Hd.
  assert (Hc : d = 0 \/ d = 1 \/ d = 2 \/ d = 3 \/ d = 4 \/ d = 5 \/ d = 6 \/
               d = 7 \/ d = 8 \/ d = 9) by lia.
  repeat (destruct Hc as [-> | Hc]; [reflexivity |]).
  subst d. reflexivity.
Qed.

Lemma month_day_table :
  forallb (fun k => month_day_ok (month_day (Z.of_nat k) true)
                    && month_day_ok (month_day (Z.of_nat k) false))
    (seq 0 365) = true.
Proof. vm_compute. reflexivity. Qed.

Lemma month_day_range n leapyear :
  0 <= n < 365 -> month_day_ok (month_day n leapyear) = true.
Proof.
  intros Hn.
  pose proof month_day_table as Ht.
  rewrite forallb_forall in Ht.
  specialize (Ht (Z.to_nat n)).
  rewrite Z2Nat.id in Ht by lia.
  assert (Hin : In (Z.to_nat n) (seq 0 365)) by (apply in_seq; lia).
  apply Ht in Hin. apply andb_true_iff in Hin as [H1 H2].
  destruct leapyear; assumption.
Qed.

Lemma ord2ymd_range n :
  1 <= n <= MAXORDINAL ->
  1 <= fst (fst (ord2ymd n)) <= 9999 /\
  1 <= snd (fst (ord2ymd n)) <= 12 /\
  1 <= snd (ord2ymd n) <= 31.
Proof.
  unfold MAXORDINAL. intros Hn. unfold ord2ymd.
  set (n400 := (n - 1) / DI400Y).
  set (r400 := (n - 1) mod DI400Y).
  set (n100 := r400 / DI100Y).
  set (r100 := r400 mod DI100Y).
  set (n4 := r100 / DI4Y).
  set (r4 := r100 mod DI4Y).
  set (n1 := r4 / 365).
  set (r1 := r4 mod 365).
  assert (Hy : 0 <= n400 /\ 0 <= n100 /\ 0 <= n4 /\ 0 <= n1 /\
               0 <= r1 < 365 /\ n1 <= 4 /\ n100 <= 4 /\
               n400 * 400 + n100 * 100 + n4 * 4 + n1 <= 9999 /\
               (n1 = 4 \/ n100 = 4 ->
                n400 * 400 + n100 * 100 + n4 * 4 + n1 <= 9999) /\
               (n1 <> 4 -> n100 <> 4 ->
                n400 * 400 + 1 + n100 * 100 + n4 * 4 + n1 <= 9999)).
  { subst n400 r400 n100 r100 n4 r4 n1 r1. unfold DI400Y, DI100Y, DI4Y.
    Z.div_mod_to_equations. lia. }
  destruct Hy as (H400 & H100 & H4 & H1 & Hr & Hn1 & Hn100 & _ & Hs & Hg).
  destruct ((n1 =? 4) || (n100 =? 4)) eqn:Hlast.
  - simpl. apply orb_true_iff in Hlast.
    assert (n1 = 4 \/ n100 = 4) as Hor by (destruct Hlast as [?%Z.eqb_eq | ?%Z.eqb_eq]; auto).
    specialize (Hs Hor). lia.
  - apply orb_false_iff in Hlast as [Ha%Z.eqb_neq Hb%Z.eqb_neq].
    specialize (Hg Ha Hb).
    set (leapyear := (n1 =? 3) && (negb (n4 =? 24) || (n100 =? 3))).
    pose proof (month_day_range r1 leapyear Hr) as Hmd.
    unfold month_day, month_day_ok in Hmd.
    destruct (r1 <? _); simpl in Hmd |- *;
      repeat (apply andb_true_iff in Hmd as [Hmd ?]); lia.
Qed.

Lemma year_range d : dt_valid d -> 1 <= year d <= 9999.
Proof.
  unfold dt_valid, MAX_US, year, ordinal, MAXORDINAL, US_PER_DAY, US_PER_SECOND.
  intros H. apply ord2ymd_range. unfold MAXORDINAL.
  Z.div_mod_to_equations. lia.
Qed.

Lemma month_range d : dt_valid d -> 1 <= month d <= 12.
Proof.
  unfold dt_valid, MAX_US, month, ordinal, MAXORDINAL, US_PER_DAY, US_PER_SECOND.
  intros H. apply ord2ymd_range. unfold MAXORDINAL.
  Z.div_mod_to_equations. lia.
Qed.

Lemma day_range d : dt_valid d -> 1 <= day d <= 31.
Proof.
  unfold dt_valid, MAX_US, day, ordinal, MAXORDINAL, US_PER_DAY, US_PER_SECOND.
  intros H. apply ord2ymd_range. unfold MAXORDINAL.
  Z.div_mod_to_equations. lia.
Qed.

Lemma time_range d :
  0 <= hour d < 24 /\ 0 <= minute d < 60 /\ 0 <= second d < 60.
Proof.
  unfold hour, minute, second, second_of_day, US_PER_DAY, US_PER_SECOND.
  Z.div_mod_to_equations. lia.
Qed.

Lemma matches_layout_app l1 s1 l2 s2 :
  matches_layout l1 s1 = true -> matches_layout l2 s2 = true ->
  matches_layout (l1 +:+ l2) (s1 +:+ s2) = true.
Proof.
  revert s1. induction l1 as [| p l1 IH]; intros [| c s1] H1 H2;
    simpl in *; try discriminate; [assumption |].
  apply andb_true_iff in H1 as [Hc H1]. rewrite Hc. simpl. auto.
Qed.

Lemma zfill2_layout n p q :
  0 <= n < 100 -> is_placeholder p = true -> is_placeholder q = true ->
  matches_layout (String p (String q "")) (zfill2 n) = true.
Proof.
  intros Hn Hp Hq. unfold zfill2. simpl. rewrite Hp, Hq.
  rewrite !digit_is_digit; [reflexivity | |]; Z.div_mod_to_equations; lia.
Qed.

Lemma zfill4_layout n : 0 <= n < 10000 -> matches_layout "YYYY" (zfill4 n) = true.
Proof.
  intros Hn. unfold zfill4.
  change "YYYY" with ("Y" +:+ ("Y" +:+ "YY")).
  change (String ?a (String ?b ?r)) with (String a "" +:+ (String b "" +:+ r)).
  repeat apply matches_layout_app;
    [| | apply zfill2_layout; [Z.div_mod_to_equations; lia | reflexivity..]];
    simpl; rewrite digit_is_digit; try reflexivity;
    Z.div_mod_to_equations; lia.
Qed.

Lemma strftime_fields d :
  strftime d "%Y-%m-%d %H:%M:%S" =
  zfill4 (year d) +:+ ("-" +:+ (zfill2 (month d) +:+ ("-" +:+ (zfill2 (day d)
  +:+ (" " +:+ (zfill2 (hour d) +:+ (":" +:+ (zfill2 (minute d)
  +:+ (":" +:+ zfill2 (second d)))))))))).
Proof. reflexivity. Qed.

(** A valid datetime prints as YYYY-MM-DD HH:MM:SS. *)
Lemma strftime_is_timestamp d :
  dt_valid d -> is_timestamp (strftime d "%Y-%m-%d %H:%M:%S") = true.
Proof.
  intros Hd.
  pose proof (year_range d Hd) as Hy. pose proof (month_range d Hd) as Hm.
  pose proof (day_range d Hd) as Hday.
  pose proof (time_range d) as (Hh & Hmi & Hs).
  rewrite strftime_fields. unfold is_timestamp.
  change "YYYY-MM-DD HH:MM:SS" with
    ("YYYY" +:+ ("-" +:+ ("MM" +:+ ("-" +:+ ("DD" +:+ (" " +:+ ("HH"
     +:+ (":" +:+ ("MM" +:+ (":" +:+ "SS")))))))))).
  repeat apply matches_layout_app;
    first [ reflexivity
          | apply zfill4_layout; lia
          | apply zfill2_layout; [lia | reflexivity..] ].
Qed.

End CalendarFacts.

Lemma bind_ret {A B} (m : M A) (f : A -> M B) w b w' :
  (m ≫= f) w = Ret b w' ->
  exists a w1, m w = Ret a w1 /\ f a w1 = Ret b w'.
Proof.
  unfold mbind, M_bind. destruct (m w) as [a w1 | |]; try discriminate.
  eauto.
Qed.

Lemma bind_ret_intro {A B} (m : M A) (f : A -> M B) w a w1 r :
  m w = Ret a w1 -> f a w1 = r -> (m ≫= f) w = r.
Proof. unfold mbind, M_bind. intros -> ->. reflexivity. Qed.

Lemma bind_raise {A B} (m : M A) (f : A -> M B) w e w' :
  (m ≫= f) w = Raise e w' ->
  m w = Raise e w' \/ exists a w1, m w = Ret a w1 /\ f a w1 = Raise e w'.
Proof.
  unfold mbind, M_bind. destruct (m w) as [a w1 | |]; intros H;
    try discriminate; [right; eauto | left; injection H as -> ->; reflexivity].
Qed.

Lemma bind_out {A B} (m : M A) (f : A -> M B) w w' :
  (m ≫= f) w = OutOfFuel w' ->
  m w = OutOfFuel w' \/ exists a w1, m w = Ret a w1 /\ f a w1 = OutOfFuel w'.
Proof.
  unfold mbind, M_bind. destruct (m w) as [a w1 | |]; intros H;
    try discriminate; [right; eauto | left; injection H as ->; reflexivity].
Qed.

Section While.
Context {St : Type} (cond : St -> bool) (body : St -> M St).
Variable P : St -> World -> Prop.
Hypothesis body_keeps : forall s w s' w',
  P s w -> cond s = true -> body s w = Ret s' w' -> P s' w'.

Lemma while_ret fuel s w s' w' :
  P s w -> while fuel cond body s w = Ret s' w' ->
  P s' w' /\ cond s' = false.
Proof.
  revert s w. induction fuel as [| fuel IH]; intros s w HP H; simpl in H;
    destruct (cond s) eqn:Hc; try discriminate.
  - injection H as <- <-. auto.
  - destruct (body s w) as [s1 w1 | |] eqn:Hb; try discriminate.
    eapply IH; [| exact H]. eauto.
  - injection H as <- <-. auto.
Qed.

Lemma while_raise (Q : exn -> World -> Prop) fuel s w e w' :
  (forall s w e w', P s w -> cond s = true -> body s w = Raise e w' -> Q e w') ->
  P s w -> while fuel cond body s w = Raise e w' -> Q e w'.
Proof.
  intros HQ. revert s w. induction fuel as [| fuel IH]; intros s w HP H;
    simpl in H; destruct (cond s) eqn:Hc; try discriminate.
  destruct (body s w) as [s1 w1 | e1 w1 |] eqn:Hb; try discriminate.
  - eapply IH; [| exact H]. eauto.
  - injection H as <- <-. eauto.
Qed.

Lemma while_more_fuel fuel fuel' s w s' w' :
  (fuel <= fuel')%nat ->
  while fuel cond body s w = Ret s' w' ->
  while fuel' cond body s w = Ret s' w'.
Proof.
  revert fuel' s w. induction fuel as [| fuel IH]; intros fuel' s w Hle H;
    simpl in H; destruct (cond s) eqn:Hc; try discriminate.
  - destruct fuel'; simpl; rewrite Hc; exact H.
  - destruct fuel' as [| fuel']; [lia |]. simpl. rewrite Hc.
    destruct (body s w) as [s1 w1 | |]; try discriminate.
    apply IH; [lia | exact H].
  - destruct fuel'; simpl; rewrite Hc; exact H.
Qed.

Lemma iterations_inv fuel s w sw :
  P s w -> In sw (iterations fuel cond body s w) ->
  P sw.1 sw.2 /\ cond sw.1 = true.
Proof.
  revert s w. induction fuel as [| fuel IH]; intros s w HP H; simpl in H;
    destruct (cond s) eqn:Hc; try contradiction.
  destruct H as [<- | H]; [auto |].
  destruct (body s w) as [s1 w1 | |] eqn:Hb; try contradiction.
  eapply IH; [| exact H]. eauto.
Qed.
End While.

Ltac prim H :=
  unfold ser_write, time_time, datetime_now, timedelta, datetime_add, to_csv,
    os_system, print_frame, print, emit, time_sleep, input, kbhit, getch,
    serial_Serial, dict_iadd, pd_DataFrame, mret, M_ret, raise in H.

Ltac norm_world :=
  cbn [clock_reads lines_read key_polls ser_calls disk_calls ser_out files
       console slept].

Ltac norm_world_in H :=
  cbn [clock_reads lines_read key_polls ser_calls disk_calls ser_out files
       console slept] in H.

Ltac cases_in H :=
  repeat match type of H with
         | context [match ?b with _ => _ end] => destruct b eqn:?
         end.

Ltac step H :=
  let Hs := fresh "Hs" in
  apply bind_ret in H as (? & ? & Hs & H);
  prim Hs; cbn beta iota zeta in Hs; cases_in Hs; simplify_eq.

Ltac step_out H :=
  let Hs := fresh "Hs" in
  apply bind_out in H as [H | (? & ? & Hs & H)];
  [ prim H; cbn beta iota zeta in H; cases_in H; simplify_eq
  | prim Hs; cbn beta iota zeta in Hs; cases_in Hs; simplify_eq ].

Ltac step_raise H :=
  let Hs := fresh "Hs" in
  apply bind_raise in H as [H | (? & ? & Hs & H)];
  [ prim H; cbn beta iota zeta in H; cases_in H; simplify_eq
  | prim Hs; cbn beta iota zeta in Hs; cases_in Hs; simplify_eq ].

Section Steps.
Variable env : Env.

Lemma dict_iadd_timestamp ts ss xs w :
  dict_iadd (table ts ss) "Timestamp" xs w = Ret (table (ts ++ xs) ss) w.
Proof. reflexivity. Qed.

Lemma dict_iadd_state ts ss xs w :
  dict_iadd (table ts ss) "System State" xs w = Ret (table ts (ss ++ xs)) w.
Proof. reflexivity. Qed.

Lemma transpose_records (log : list (string * string)) :
  transpose (length log) [log.*1; log.*2] = records log.
Proof.
  induction log as [| [t s] log IH]; simpl; [reflexivity |].
  f_equal. exact IH.
Qed.

Lemma pd_DataFrame_table_of log w :
  pd_DataFrame (table_of log) w = Ret (mk_frame header (records log)) w.
Proof.
  unfold pd_DataFrame, table_of, table.
  cbn [map snd fst forallb]. rewrite !length_fmap, Nat.eqb_refl. cbn [andb].
  unfold mret, M_ret. rewrite transpose_records. reflexivity.
Qed.

Lemma table_of_snoc log t st :
  table (log.*1 ++ [t]) (log.*2 ++ [st]) = table_of (log ++ [(t, st)]).
Proof. unfold table_of. rewrite !fmap_app. reflexivity. Qed.

Lemma change_system_state_ret ser tg log p wf w r w' :
  change_system_state env ser tg (table_of log) p wf w = Ret r w' ->
  let d := now_at env (S (clock_reads w)) in
  let log' := log ++ [(get_timestamp d, state_label tg)] in
  dt_valid d /\
  r = (flip tg, table_of log', clock env (clock_reads w)) /\
  ser_accepts env (ser_calls w) = true /\
  disk_accepts env (disk_calls w) = true /\
  ser_out w' = ser_out w ++ [x30] /\
  files w' = <[wf := csv_of log']> (files w) /\
  clock_reads w' = S (S (clock_reads w)) /\
  ser_calls w' = S (ser_calls w) /\
  disk_calls w' = S (disk_calls w) /\
  key_polls w' = key_polls w /\
  lines_read w' = lines_read w /\
  slept w' = slept w.
Proof.
  unfold change_system_state. intros H.
  step H. step H. step H.
  apply bind_ret in H as (? & ? & Hs & H).
  unfold table_of in Hs. rewrite dict_iadd_timestamp in Hs. simplify_eq.
  step H. step H.
  assert (Hv : dt_valid (now_at env (S (clock_reads w)))).
  { unfold dt_validb in *. unfold dt_valid, now_at. simpl in *. lia. }
  unfold flip, state_label.
  destruct (negb (tg =? 0));
    (apply bind_ret in H as (? & ? & Hs & H);
     rewrite dict_iadd_state, table_of_snoc in Hs; simplify_eq;
     apply bind_ret in H as (? & ? & Hs & H);
     rewrite pd_DataFrame_table_of in Hs; simplify_eq;
     step H; step H; step H; step H; prim H; simplify_eq;
     simpl; split; [exact Hv |]; repeat split; auto).
Qed.

Lemma change_system_state_raise ser tg dc p wf w e w' :
  change_system_state env ser tg dc p wf w = Raise e w' ->
  files w' = files w /\
  ser_calls w' = S (ser_calls w) /\
  (e = SerialWriteError /\ ser_accepts env (ser_calls w) = false /\
   ser_out w' = ser_out w
   \/
   e <> SerialWriteError /\ ser_accepts env (ser_calls w) = true /\
   ser_out w' = ser_out w ++ [x30]).
Proof.
  unfold change_system_state. intros H.
  repeat (step_raise H; try solve [simpl; intuition congruence]).
  all: destruct (negb (tg =? 0)).
  all: repeat (step_raise H; try solve [simpl; intuition congruence]).
  all: prim H; simplify_eq.
Qed.

Lemma change_system_state_returns ser tg dc p wf w w' :
  change_system_state env ser tg dc p wf w <> OutOfFuel w'.
Proof.
  unfold change_system_state. intros H.
  repeat (step_out H).
  all: destruct (negb (tg =? 0)).
  all: repeat (step_out H).
  all: prim H; simplify_eq.
Qed.

(** A transition goes through when the device and the disk accept and
    the dates are in range. *)
Lemma change_system_state_runs ser tg log p wf w :
  ser_accepts env (ser_calls w) = true ->
  disk_accepts env (disk_calls w) = true ->
  dt_validb (now_at env (S (clock_reads w))) = true ->
  dt_validb (mk_datetime (dt_us (now_at env (S (clock_reads w))) + p * 60))
  = true ->
  exists r w', change_system_state env ser tg (table_of log) p wf w = Ret r w'.
Proof.
  intros Hs Hd Hv Hn.
  assert (Htd : (-999999999 <=? (p * 60) / US_PER_DAY)
                && ((p * 60) / US_PER_DAY <=? 999999999) = true).
  { unfold dt_validb, now_at, MAX_US, MAXORDINAL, US_PER_DAY, US_PER_SECOND
      in *. simpl in *.
    apply andb_true_iff in Hv as [?%Z.leb_le ?%Z.ltb_lt].
    apply andb_true_iff in Hn as [?%Z.leb_le ?%Z.ltb_lt].
    apply andb_true_iff. split; apply Z.leb_le;
      Z.div_mod_to_equations; lia. }
  assert (Hadd : (0 <? ordinal (mk_datetime
                     (dt_us (now_at env (S (clock_reads w))) + p * 60)))
                 && (ordinal (mk_datetime
                       (dt_us (now_at env (S (clock_reads w))) + p * 60))
                     <=? MAXORDINAL) = true).
  { unfold dt_validb, ordinal, MAX_US, MAXORDINAL, US_PER_DAY, US_PER_SECOND
      in *. simpl in *.
    apply andb_true_iff in Hn as [?%Z.leb_le ?%Z.ltb_lt].
    apply andb_true_iff. split; [apply Z.ltb_lt | apply Z.leb_le];
      Z.div_mod_to_equations; lia. }
  unfold change_system_state.
  destruct (negb (tg =? 0));
    (eexists _, _;
     eapply bind_ret_intro; [unfold ser_write; rewrite Hs; reflexivity |];
     eapply bind_ret_intro; [reflexivity |]; norm_world;
     eapply bind_ret_intro;
       [unfold datetime_now; norm_world;
        fold (now_at env (S (clock_reads w))); rewrite Hv; reflexivity |];
     eapply bind_ret_intro; [apply dict_iadd_timestamp |];
     eapply bind_ret_intro; [unfold timedelta; rewrite Htd; reflexivity |];
     eapply bind_ret_intro; [unfold datetime_add; rewrite Hadd; reflexivity |];
     eapply bind_ret_intro; [apply dict_iadd_state |];
     rewrite table_of_snoc;
     eapply bind_ret_intro; [apply pd_DataFrame_table_of |];
     eapply bind_ret_intro;
       [unfold to_csv; norm_world; rewrite Hd; reflexivity |];
     norm_world;
     eapply bind_ret_intro; [reflexivity |]; norm_world;
     eapply bind_ret_intro; [reflexivity |]; norm_world;
     eapply bind_ret_intro; [reflexivity |]; norm_world;
     reflexivity).
Qed.

Lemma loop_body_ret ser p wf s w log s' w' :
  dic s = table_of log ->
  loop_body env ser p wf s w = Ret s' w' ->
  key_polls w' = S (key_polls w) /\
  slept w' = slept w + 10000 /\
  lines_read w' = lines_read w /\
  match branch env p (s, w) with
  | Manual =>
      fired env wf log (clock_reads w) s w s' w' /\ cycle_n s' = cycle_n s
  | Auto =>
      fired env wf log (S (clock_reads w)) s w s' w' /\
      cycle_n s' = cycle_n s + 1
  | KeyIgnored => idle s w s' w' /\ clock_reads w' = clock_reads w
  | Wait => idle s w s' w' /\ clock_reads w' = S (clock_reads w)
  end.
Proof.
  intros Hdic H. unfold loop_body in H. rewrite Hdic in H.
  unfold branch. cbn [fst snd].
  step H.
  apply bind_ret in H as (hit & w1 & Hk & H).
  unfold kbhit in Hk. cbn [key_polls] in Hk.
  destruct (keyboard env (key_polls w)) as [b |] eqn:Hkey; simplify_eq.
  - apply bind_ret in H as (c & w1 & Hg & H).
    unfold getch in Hg. cbn [key_polls] in Hg. rewrite Hkey in Hg.
    simplify_eq.
    match type of H with
    | context [Byte.eqb ?x x30] => destruct (Byte.eqb x x30) eqn:Hb
    end.
    + apply bind_ret in H as ([[t dc] l] & w2 & Hc & H).
      apply change_system_state_ret in Hc. cbn zeta in Hc.
      cbn [clock_reads ser_calls disk_calls ser_out files key_polls
           lines_read slept] in Hc.
      prim H. simplify_eq. unfold fired. cbn [toggle dic cycle_n
        last_state_change_time].
      destruct Hc as (? & ? & ? & ? & ? & ? & ? & ? & ? & ? & ? & ?).
      simplify_eq. unfold dt_valid in *. repeat split; auto; lia.
    + prim H. simplify_eq. unfold idle. simpl. repeat split; auto.
  - step H. cbn [clock_reads] in H.
    destruct (p * 60 <=? _) eqn:Hel.
    + apply bind_ret in H as ([[t dc] l] & w2 & Hc & H).
      apply change_system_state_ret in Hc. cbn zeta in Hc.
      cbn [clock_reads ser_calls disk_calls ser_out files key_polls
           lines_read slept] in Hc.
      prim H. simplify_eq. unfold fired. cbn [toggle dic cycle_n
        last_state_change_time].
      destruct Hc as (? & ? & ? & ? & ? & ? & ? & ? & ? & ? & ? & ?).
      simplify_eq.
      unfold dt_valid in *. repeat split; auto; lia.
    + prim H. simplify_eq. unfold idle. simpl. repeat split; auto.
Qed.

Lemma loop_body_raise ser p wf s w e w' :
  loop_body env ser p wf s w = Raise e w' ->
  files w' = files w /\
  ser_calls w' = S (ser_calls w) /\
  (e = SerialWriteError /\ ser_accepts env (ser_calls w) = false /\
   ser_out w' = ser_out w
   \/
   e <> SerialWriteError /\ ser_accepts env (ser_calls w) = true /\
   ser_out w' = ser_out w ++ [x30]).
Proof.
  unfold loop_body. intros H.
  step_raise H. step_raise H.
  - step_raise H.
    match type of H with
    | context [Byte.eqb ?x x30] => destruct (Byte.eqb x x30)
    end; [| prim H; simplify_eq].
    apply bind_raise in H as [H | ([[? ?] ?] & ? & _ & H)];
      [| prim H; simplify_eq].
    apply change_system_state_raise in H. exact H.
  - step_raise H. cbn [last_state_change_time] in H.
    destruct (p * 60 <=? _); [| prim H; simplify_eq].
    apply bind_raise in H as [H | ([[? ?] ?] & ? & _ & H)];
      [| prim H; simplify_eq].
    apply change_system_state_raise in H. exact H.
Qed.

Lemma loop_body_returns ser p wf s w w' :
  loop_body env ser p wf s w <> OutOfFuel w'.
Proof.
  unfold loop_body. intros H.
  step_out H. step_out H.
  - step_out H.
    match type of H with
    | context [Byte.eqb ?x x30] => destruct (Byte.eqb x x30)
    end; [| prim H; simplify_eq].
    apply bind_out in H as [H | ([[? ?] ?] & ? & _ & H)];
      [| prim H; simplify_eq].
    apply change_system_state_returns in H. exact H.
  - step_out H. cbn [last_state_change_time] in H.
    destruct (p * 60 <=? _); [| prim H; simplify_eq].
    apply bind_out in H as [H | ([[? ?] ?] & ? & _ & H)];
      [| prim H; simplify_eq].
    apply change_system_state_returns in H. exact H.
Qed.

Lemma gate_ret fuel cmd w cmd' w' :
  while fuel (fun cmd => negb (String.eqb cmd ""))
    (fun _ => print prompt;; input env) cmd w = Ret cmd' w' ->
  same_devices w w'.
Proof.
  intros H.
  eapply (while_ret _ _ (fun _ w1 => same_devices w w1)) in H as [H _];
    [exact H | | unfold same_devices; tauto].
  clear. intros _ w1 s' w2 Hw _ H. step H. prim H. simplify_eq.
  unfold same_devices in *. simpl. exact Hw.
Qed.

Lemma gate_raise fuel cmd w e w' :
  while fuel (fun cmd => negb (String.eqb cmd ""))
    (fun _ => print prompt;; input env) cmd w <> Raise e w'.
Proof.
  intros H.
  refine (while_raise _ _ (fun _ _ => True) (fun _ _ _ _ _ _ _ => I)
            (fun _ _ => False) fuel cmd w e w' _ I H).
  clear. intros _ w1 e w2 _ _ H. step_raise H.
Qed.

Lemma logger_start_ret fuel port baud p wf w ser s1 w1 :
  logger_start env fuel port baud p wf w = Ret (ser, s1) w1 ->
  let d := now_at env (S (clock_reads w)) in
  dt_valid d /\
  s1 = mk_state 1 (table_of [(get_timestamp d, "On")])
         (clock env (clock_reads w)) 1 /\
  ser_accepts env (ser_calls w) = true /\
  ser_out w1 = ser_out w ++ [x30] /\
  files w1 = <[wf := csv_of [(get_timestamp d, "On")]]> (files w) /\
  clock_reads w1 = S (S (clock_reads w)) /\
  ser_calls w1 = S (ser_calls w) /\
  disk_calls w1 = S (disk_calls w) /\
  key_polls w1 = key_polls w /\
  slept w1 = slept w + 1000000.
Proof.
  unfold logger_start. intros H.
  step H. step H. step H.
  apply bind_ret in H as (? & wg & Hg & H).
  apply gate_ret in Hg. unfold same_devices in Hg. simpl in Hg.
  destruct Hg as (? & ? & ? & ? & ? & ? & ?).
  step H.
  apply bind_ret in H as ([[t dc] l] & w2 & Hc & H).
  apply (change_system_state_ret _ _ []) in Hc. cbn zeta in Hc.
  cbn [clock_reads ser_calls disk_calls ser_out files key_polls
       lines_read slept] in Hc.
  destruct Hc as (? & ? & ? & ? & ? & ? & ? & ? & ? & ? & ? & ?).
  prim H. simplify_eq. cbn zeta.
  repeat match goal with H : _ = _ |- _ => rewrite H in * end.
  unfold dt_valid in *. repeat split; auto; try lia; congruence.
Qed.

Lemma logger_start_raise fuel port baud p wf w e w1 :
  logger_start env fuel port baud p wf w = Raise e w1 ->
  files w1 = files w /\
  (e = SerialWriteError ->
   ser_accepts env (ser_calls w) = false /\ ser_out w1 = ser_out w /\
   ser_calls w1 = S (ser_calls w)).
Proof.
  unfold logger_start. intros H.
  step_raise H; [split; [reflexivity | discriminate] |].
  step_raise H. step_raise H.
  apply bind_raise in H as [H | (? & wg & Hg & H)];
    [apply gate_raise in H; contradiction |].
  apply gate_ret in Hg. unfold same_devices in Hg. simpl in Hg.
  destruct Hg as (? & ? & Hsc & ? & Hso & Hf & ?).
  step_raise H.
  apply bind_raise in H as [H | ([[? ?] ?] & ? & _ & H)];
    [| prim H; simplify_eq].
  apply change_system_state_raise in H. simpl in H.
  rewrite Hsc, Hso, Hf in H. destruct H as (? & ? & [H | H]);
    split; auto; intros ->; intuition congruence.
Qed.

Lemma logger_finish_ret p wf s w log w' :
  dic s = table_of log ->
  logger_finish env p wf s w = Ret tt w' ->
  let now := now_at env (clock_reads w) in
  let last_ts := mk_datetime (dt_us now + p * 60 / 2) in
  dt_valid now /\ dt_valid last_ts /\
  files w' = <[wf := csv_of (log ++ [(get_timestamp last_ts, "On")])]> (files w) /\
  disk_accepts env (disk_calls w) = true /\
  ser_out w' = ser_out w /\
  ser_calls w' = ser_calls w /\
  disk_calls w' = S (disk_calls w) /\
  clock_reads w' = S (clock_reads w) /\
  key_polls w' = key_polls w.
Proof.
  unfold logger_finish. intros Hdic H. rewrite Hdic in H.
  step H. step H. step H.
  apply bind_ret in H as (? & ? & Hs & H).
  unfold table_of in Hs. rewrite dict_iadd_timestamp in Hs. simplify_eq.
  apply bind_ret in H as (? & ? & Hs & H).
  rewrite dict_iadd_state, table_of_snoc in Hs. simplify_eq.
  apply bind_ret in H as (? & ? & Hs & H).
  rewrite pd_DataFrame_table_of in Hs. simplify_eq.
  prim H. cases_in H; simplify_eq.
  cbn zeta. unfold dt_validb, dt_valid, now_at, ordinal, MAX_US in *.
  simpl in *. unfold MAXORDINAL, US_PER_DAY, US_PER_SECOND in *.
  repeat split; auto; Z.div_mod_to_equations; lia.
Qed.

Lemma logger_finish_raise p wf s w e w' :
  logger_finish env p wf s w = Raise e w' -> e <> SerialWriteError.
Proof.
  unfold logger_finish. intros H.
  repeat (step_raise H; try discriminate).
  all: prim H; cases_in H; simplify_eq; discriminate.
Qed.

Lemma alt_states_S n :
  alt_states (S n) = alt_states n ++ [if Nat.even n then "On" else "Off"].
Proof. unfold alt_states. rewrite seq_S, map_app. reflexivity. Qed.

Lemma alt_states_lookup n i st :
  alt_states n !! i = Some st ->
  st = if Nat.even i then "On" else "Off".
Proof.
  unfold alt_states. intros H.
  change (map ?f ?l) with (f <$> l) in H.
  rewrite list_lookup_fmap in H.
  destruct (seq 0 n !! i) as [j |] eqn:Hj; [| discriminate].
  apply lookup_seq in Hj as [-> _]. simpl in H. congruence.
Qed.

Lemma alt_states_alternate n i st st' :
  alt_states n !! i = Some st -> alt_states n !! S i = Some st' ->
  st <> st'.
Proof.
  intros ->%alt_states_lookup ->%alt_states_lookup.
  rewrite Nat.even_succ, <- Nat.negb_even.
  destruct (Nat.even i); discriminate.
Qed.

Lemma state_label_parity n :
  state_label (Z.of_nat n mod 2) = if Nat.even n then "On" else "Off".
Proof.
  unfold state_label.
  destruct (Nat.even n) eqn:He.
  - apply Nat.even_spec in He as [k ->].
    replace (Z.of_nat (2 * k) mod 2) with 0; [reflexivity |].
    Z.div_mod_to_equations. lia.
  - rewrite <- Nat.negb_odd in He. apply negb_false_iff in He.
    apply Nat.odd_spec in He as [k ->].
    replace (Z.of_nat (2 * k + 1) mod 2) with 1; [reflexivity |].
    Z.div_mod_to_equations. lia.
Qed.

Lemma flip_parity n : flip (Z.of_nat n mod 2) = Z.of_nat (S n) mod 2.
Proof.
  unfold flip.
  assert (H : Z.of_nat n mod 2 = 0 \/ Z.of_nat n mod 2 = 1)
    by (Z.div_mod_to_equations; lia).
  destruct H as [H | H]; rewrite H; simpl negb; cbv iota;
    Z.div_mod_to_equations; lia.
Qed.

Lemma get_timestamp_is_timestamp d :
  dt_valid d -> is_timestamp (get_timestamp d) = true.
Proof. apply CalendarFacts.strftime_is_timestamp. Qed.

Lemma fired_keeps w0 wf log k s w s' w' :
  dic s = table_of log ->
  ser_out w = ser_out w0 ++ replicate (length log) x30 ->
  ser_calls w = (ser_calls w0 + length log)%nat ->
  disk_calls w = (disk_calls w0 + length log)%nat ->
  log.*2 = alt_states (length log) ->
  toggle s = Z.of_nat (length log) mod 2 ->
  Forall (fun r => is_timestamp r.1 = true) log ->
  1 <= cycle_n s' <= 20 ->
  fired env wf log k s w s' w' ->
  Inv w0 wf s' w'.
Proof.
  intros Hdic Hout Hsc Hdc Hst Htg Hts Hcy
    (Hv & Htg' & Hdic' & _ & _ & _ & Hout' & Hf' & _ & Hsc' & Hdc').
  eexists. split; [exact Hdic' |].
  rewrite length_app. simpl length. rewrite Nat.add_1_r.
  split; [lia |].
  split; [rewrite Hf'; apply lookup_insert_eq |].
  split; [rewrite Hout', Hout, <- app_assoc, replicate_S_end; reflexivity |].
  split; [lia |]. split; [lia |].
  split.
  { rewrite fmap_app, Hst, alt_states_S. simpl. rewrite Htg.
    rewrite state_label_parity. reflexivity. }
  split; [rewrite Htg', Htg; apply flip_parity |].
  split; [| exact Hcy].
  apply Forall_app. split; [exact Hts |].
  constructor; [| constructor]. simpl.
  apply get_timestamp_is_timestamp, Hv.
Qed.

Lemma loop_body_keeps w0 ser p wf s w s' w' :
  Inv w0 wf s w -> (cycle_n s <? 20) = true ->
  loop_body env ser p wf s w = Ret s' w' -> Inv w0 wf s' w'.
Proof.
  intros (log & Hdic & Hlen & Hf & Hout & Hsc & Hdc & Hst & Htg & Hts & Hcy)
    Hc%Z.ltb_lt H.
  apply (loop_body_ret _ _ _ _ _ log) in H as (_ & _ & _ & H);
    [| exact Hdic].
  destruct (branch env p (s, w)).
  - destruct H as [H Hn]. eapply fired_keeps; eauto. lia.
  - destruct H as [(-> & Ho & Hf' & Hs' & Hd') _].
    exists log. rewrite Ho, Hf', Hs', Hd'. tauto.
  - destruct H as [H Hn]. eapply fired_keeps; eauto. lia.
  - destruct H as [(-> & Ho & Hf' & Hs' & Hd') _].
    exists log. rewrite Ho, Hf', Hs', Hd'. tauto.
Qed.

Lemma logger_start_inv fuel port baud p wf w0 ser s1 w1 :
  logger_start env fuel port baud p wf w0 = Ret (ser, s1) w1 ->
  Inv w0 wf s1 w1 /\ cycle_n s1 = 1 /\
  exists ts, dic s1 = table_of [(ts, "On")].
Proof.
  intros H. apply logger_start_ret in H. cbn zeta in H.
  destruct H as (Hv & -> & _ & Hout & Hf & _ & Hsc & Hdc & _).
  split; [| split; [reflexivity | eexists; reflexivity]].
  eexists. split; [reflexivity |]. simpl length.
  split; [lia |].
  split; [rewrite Hf; apply lookup_insert_eq |].
  split; [exact Hout |]. split; [lia |]. split; [lia |].
  split; [reflexivity |]. split; [reflexivity |].
  split; [| simpl; lia].
  constructor; [| constructor]. apply get_timestamp_is_timestamp, Hv.
Qed.

Lemma logger_ret fuel port baud p wf w0 w :
  logger env fuel port baud p wf w0 = Ret tt w ->
  exists ser s1 w1 s2 w2,
    logger_start env fuel port baud p wf w0 = Ret (ser, s1) w1 /\
    logger_loop env fuel ser p wf s1 w1 = Ret s2 w2 /\
    logger_finish env p wf s2 w2 = Ret tt w.
Proof.
  unfold logger. intros H.
  apply bind_ret in H as ([ser s1] & w1 & H1 & H).
  apply bind_ret in H as (s2 & w2 & H2 & H).
  eauto 10.
Qed.

Lemma count_branch_cons p l sw its :
  count_branch env p l (sw :: its) =
  ((if decide (branch env p sw = l) then 1 else 0)
   + count_branch env p l its)%nat.
Proof.
  unfold count_branch. rewrite filter_cons.
  destruct (decide _); reflexivity.
Qed.

Lemma loop_counts ser p wf fuel s w s' w' log :
  dic s = table_of log ->
  logger_loop env fuel ser p wf s w = Ret s' w' ->
  let its := iterations fuel (fun s => cycle_n s <? 20)
               (loop_body env ser p wf) s w in
  exists log',
    dic s' = table_of log' /\
    cycle_n s' = cycle_n s + Z.of_nat (count_branch env p Auto its) /\
    length log' =
      (length log + count_branch env p Auto its
       + count_branch env p Manual its)%nat.
Proof.
  unfold logger_loop. revert s w log.
  induction fuel as [| fuel IH]; intros s w log Hdic H; simpl in H |- *;
    destruct (cycle_n s <? 20) eqn:Hc; try discriminate.
  - injection H as <- <-. exists log. unfold count_branch. simpl.
    split; [exact Hdic |]. split; lia.
  - destruct (loop_body env ser p wf s w) as [s1 w1 | |] eqn:Hb;
      try discriminate.
    pose proof (loop_body_ret _ _ _ _ _ _ _ _ Hdic Hb) as (_ & _ & _ & Hbr).
    rewrite !count_branch_cons.
    destruct (branch env p (s, w)) eqn:Hl.
    + destruct Hbr as [(_ & _ & Hd1 & _) Hn].
      destruct (IH _ _ _ Hd1 H) as (log' & Hd' & Hcy & Hlen).
      exists log'. split; [exact Hd' |].
      rewrite length_app in Hlen. simpl in Hlen.
      repeat case_decide; try discriminate; try congruence. split; lia.
    + destruct Hbr as [(-> & _) _].
      destruct (IH _ _ _ Hdic H) as (log' & Hd' & Hcy & Hlen).
      exists log'. split; [exact Hd' |].
      repeat case_decide; try discriminate; try congruence. split; lia.
    + destruct Hbr as [(_ & _ & Hd1 & _) Hn].
      destruct (IH _ _ _ Hd1 H) as (log' & Hd' & Hcy & Hlen).
      exists log'. split; [exact Hd' |].
      rewrite length_app in Hlen. simpl in Hlen.
      repeat case_decide; try discriminate; try congruence. split; lia.
    + destruct Hbr as [(-> & _) _].
      destruct (IH _ _ _ Hdic H) as (log' & Hd' & Hcy & Hlen).
      exists log'. split; [exact Hd' |].
      repeat case_decide; try discriminate; try congruence. split; lia.
  - injection H as <- <-. exists log. unfold count_branch. simpl.
    split; [exact Hdic |]. split; lia.
Qed.

Lemma table_of_inj log log' : table_of log = table_of log' -> log = log'.
Proof.
  unfold table_of, table. intros H. injection H as H1 H2.
  revert log' H1 H2. induction log as [| [t st] log IH];
    intros [| [t' st'] log'] H1 H2; simpl in *; try discriminate;
    [reflexivity |].
  injection H1 as -> H1. injection H2 as -> H2. f_equal. auto.
Qed.

(** A run that came back: its three phases and what they leave. *)
Lemma logger_run fuel port baud p wf w0 w :
  logger env fuel port baud p wf w0 = Ret tt w ->
  exists ser s1 w1 s2 w2 log ts,
    logger_start env fuel port baud p wf w0 = Ret (ser, s1) w1 /\
    logger_loop env fuel ser p wf s1 w1 = Ret s2 w2 /\
    logger_finish env p wf s2 w2 = Ret tt w /\
    Inv w0 wf s1 w1 /\ cycle_n s1 = 1 /\
    Inv w0 wf s2 w2 /\ cycle_n s2 = 20 /\
    dic s2 = table_of log /\
    ts = get_timestamp
           (mk_datetime (dt_us (now_at env (clock_reads w2)) + p * 60 / 2)) /\
    is_timestamp ts = true /\
    files w = <[wf := csv_of (log ++ [(ts, "On")])]> (files w2) /\
    ser_out w = ser_out w2 /\
    disk_calls w = S (disk_calls w2).
Proof.
  intros H. apply logger_ret in H as (ser & s1 & w1 & s2 & w2 & H1 & H2 & H3).
  pose proof (logger_start_inv _ _ _ _ _ _ _ _ _ H1) as (HI1 & Hc1 & _).
  pose proof H2 as H2'. unfold logger_loop in H2'.
  apply (while_ret _ _ (Inv w0 wf)) in H2' as [HI2 Hc2];
    [| intros; eapply loop_body_keeps; eauto | exact HI1].
  pose proof HI2 as (log & Hdic & _ & _ & _ & _ & _ & _ & _ & _ & Hcy).
  pose proof (logger_finish_ret _ _ _ _ _ _ Hdic H3) as Hfin.
  cbn zeta in Hfin.
  destruct Hfin as (_ & Hv & Hf & _ & Ho & _ & Hd & _).
  exists ser, s1, w1, s2, w2, log. eexists.
  repeat (split; [eassumption || reflexivity || idtac |]);
    [apply Z.ltb_ge in Hc2; lia | | exact Hd].
  apply get_timestamp_is_timestamp, Hv.
Qed.
End Steps.



Ltac carry H fuel' Hle :=
  let Hc := fresh "Hc" in
  apply bind_ret in H as (? & ? & Hc & H);
  eapply bind_ret_intro;
  [ first [ exact Hc
          | apply (while_more_fuel _ _ _ fuel' _ _ _ _ Hle Hc) ]
  | ].

(** More fuel does not change a run that has come back. *)
Lemma logger_start_more_fuel env fuel fuel' port baud p wf w0 r w :
  (fuel <= fuel')%nat ->
  logger_start env fuel port baud p wf w0 = Ret r w ->
  logger_start env fuel' port baud p wf w0 = Ret r w.
Proof.
  intros Hle H. unfold logger_start in *.
  repeat carry H fuel' Hle. exact H.
Qed.

Lemma logger_more_fuel env fuel fuel' port baud p wf w0 w :
  (fuel <= fuel')%nat ->
  logger env fuel port baud p wf w0 = Ret tt w ->
  logger env fuel' port baud p wf w0 = Ret tt w.
Proof.
  intros Hle H. unfold logger in *.
  apply bind_ret in H as ([ser s1] & w1 & H1 & H).
  eapply bind_ret_intro;
    [exact (logger_start_more_fuel _ _ _ _ _ _ _ _ _ _ Hle H1) |].
  cbn beta iota in *. unfold logger_loop in *.
  carry H fuel' Hle. exact H.
Qed.

(** ** The properties of the controller *)

Lemma persisted_csv_of w wf log :
  files w !! wf = Some (csv_of log) -> persisted w wf = records log.
Proof. unfold persisted, csv_of. intros ->. reflexivity. Qed.

Lemma persisted_insert w wf log m :
  files w = <[wf := csv_of log]> m -> persisted w wf = records log.
Proof.
  intros H. apply persisted_csv_of. rewrite H. apply lookup_insert_eq.
Qed.

Lemma logger_start_serial env fuel port baud p wf w ser s1 w1 :
  logger_start env fuel port baud p wf w = Ret (ser, s1) w1 ->
  ser = mk_serial port baud.
Proof.
  unfold logger_start. intros H.
  step H. step H. step H.
  apply bind_ret in H as (? & ? & _ & H).
  step H.
  apply bind_ret in H as ([[? ?] ?] & ? & _ & H).
  prim H. simplify_eq. reflexivity.
Qed.

Lemma run_iterations_eq env fuel port baud p wf w0 ser s1 w1 :
  logger_start env fuel port baud p wf w0 = Ret (ser, s1) w1 ->
  run_iterations env fuel port baud p wf w0 =
  iterations fuel (fun s => cycle_n s <? 20)
    (loop_body env (mk_serial port baud) p wf) s1 w1.
Proof.
  intros H. unfold run_iterations.
  rewrite (logger_start_serial _ _ _ _ _ _ _ _ _ _ H) in H.
  rewrite H. reflexivity.
Qed.

Lemma records_lookup log i r :
  records log !! i = Some r ->
  exists t st, log !! i = Some (t, st) /\ r = [t; st].
Proof.
  unfold records. change (map ?f ?l) with (f <$> l).
  rewrite list_lookup_fmap. destruct (log !! i) as [[t st] |]; simpl;
    intros H; [| discriminate].
  injection H as <-. eauto.
Qed.

Lemma alt_states_values n st :
  In st (alt_states n) -> st = "On" \/ st = "Off".
Proof.
  unfold alt_states. rewrite in_map_iff. intros (i & <- & _).
  destruct (Nat.even i); auto.
Qed.

(** C1, as the code has it.  A run that comes back has made one
    transition before its loop, unconditionally, and nineteen transitions
    in its loop because the period had elapsed (twenty counted ones in
    all); the file ends with these twenty rows, one row for each manual
    override and one final row.  An override leaves [cycle_n] as it was;
    the loop runs only while [cycle_n] is below 20, comes back at once
    when it is 20, starts with it at 1 and ends with it at 20. *)
Theorem C1_cycle_count env fuel port baud p wf w0 w :
  logger env fuel port baud p wf w0 = Ret tt w ->
  let its := run_iterations env fuel port baud p wf w0 in
  let ser := mk_serial port baud in
  count_branch env p Auto its = 19%nat /\
  length (persisted w wf)
    = (1 + 19 + count_branch env p Manual its + 1)%nat /\
  (forall sw s' w',
     In sw its -> branch env p sw = Manual ->
     loop_body env ser p wf sw.1 sw.2 = Ret s' w' ->
     cycle_n s' = cycle_n sw.1) /\
  (forall sw, In sw its -> cycle_n sw.1 < 20) /\
  (forall fuel' s w', cycle_n s = 20 ->
     logger_loop env fuel' ser p wf s w' = Ret s w') /\
  exists s1 w1 s2 w2,
    logger_start env fuel port baud p wf w0 = Ret (ser, s1) w1 /\
    cycle_n s1 = 1 /\
    logger_loop env fuel ser p wf s1 w1 = Ret s2 w2 /\
    cycle_n s2 = 20.
Proof.
  intros H its ser.
  apply logger_run in H
    as (ser' & s1 & w1 & s2 & w2 & log & ts & H1 & H2 & H3 & HI1 & Hc1 & HI2
        & Hc2 & Hdic & _ & _ & Hf & _).
  pose proof (logger_start_serial _ _ _ _ _ _ _ _ _ _ H1) as ->.
  fold ser in H1, H2.
  subst its. rewrite (run_iterations_eq _ _ _ _ _ _ _ _ _ _ H1). fold ser.
  pose proof (logger_start_inv _ _ _ _ _ _ _ _ _ _ H1) as (_ & _ & ts1 & Hd1).
  destruct (loop_counts _ _ _ _ _ _ _ _ _ _ Hd1 H2) as (log' & Hd' & Hcy & Hlen).
  rewrite Hdic in Hd'. apply table_of_inj in Hd'. subst log'.
  cbn zeta in Hcy, Hlen. simpl length in Hlen.
  split; [lia |].
  split.
  { rewrite (persisted_insert _ _ _ _ Hf). unfold records.
    rewrite length_map, length_app. simpl. lia. }
  split.
  { intros [s w'] s' w'' Hin Hbr Hb. simpl in *.
    apply (iterations_inv _ _ (Inv w0 wf)) in Hin as [(lg & Hlg & _) _];
      [| intros; eapply loop_body_keeps; eauto | exact HI1].
    simpl in Hlg.
    apply (loop_body_ret _ _ _ _ _ _ _ _ _ Hlg) in Hb as (_ & _ & _ & Hb).
    rewrite Hbr in Hb. apply Hb. }
  split.
  { intros sw Hin.
    apply (iterations_inv _ _ (Inv w0 wf)) in Hin as [_ Hc];
      [| intros; eapply loop_body_keeps; eauto | exact HI1].
    apply Z.ltb_lt in Hc. exact Hc. }
  split.
  { intros fuel' s w' Hs. unfold logger_loop.
    destruct fuel'; simpl; rewrite Hs; reflexivity. }
  exists s1, w1, s2, w2. auto.
Qed.

(** Where the theorem applies: the run of [env_plain]. *)
Lemma C1_cycle_count_witness :
  run_plain = Ret tt (final_world run_plain) /\
  count_branch env_plain 1000000 Auto
    (run_iterations env_plain 30 "COM3" 9600 1000000 "log.csv" world0)
  = 19%nat.
Proof.
  assert (Hrun : run_plain = Ret tt (final_world run_plain))
    by (vm_compute; reflexivity).
  split; [exact Hrun |].
  apply (C1_cycle_count env_plain 30 "COM3" 9600 1000000 "log.csv" world0
           (final_world run_plain) Hrun).
Defined.

(** C1 as stated fails: in the run of [env_plain], which has no override,
    the transitions fired because the period had elapsed are not twenty. *)
Lemma C1_counterexample :
  ~ (forall w,
       logger env_plain 30 "COM3" 9600 1000000 "log.csv" world0 = Ret tt w ->
       count_branch env_plain 1000000 Auto
         (run_iterations env_plain 30 "COM3" 9600 1000000 "log.csv" world0)
       = 20%nat).
Proof.
  intros H.
  assert (Hrun : run_plain = Ret tt (final_world run_plain))
    by (vm_compute; reflexivity).
  specialize (H (final_world run_plain) Hrun). clear Hrun.
  vm_compute in H. discriminate H.
Qed.

(** C2.  In the file a run that comes back leaves, every row before the
    final one has a state different from the state of the row before it,
    and the final row reads On. *)
Theorem C2_alternation env fuel port baud p wf w0 w :
  logger env fuel port baud p wf w0 = Ret tt w ->
  let rows := persisted w wf in
  (forall i r r',
     (S i < length rows - 1)%nat ->
     rows !! i = Some r -> rows !! S i = Some r' ->
     r !! 1%nat <> r' !! 1%nat) /\
  exists ts, last rows = Some [ts; "On"].
Proof.
  intros H rows.
  apply logger_run in H
    as (ser & s1 & w1 & s2 & w2 & log & ts & _ & _ & _ & _ & _ & HI2
        & _ & Hdic & _ & _ & Hf & _).
  destruct HI2 as (log' & Hdic' & _ & _ & _ & _ & _ & Hst & _).
  rewrite Hdic in Hdic'. apply table_of_inj in Hdic'. subst log'.
  subst rows. rewrite (persisted_insert _ _ _ _ Hf).
  split.
  - unfold records at 1. rewrite length_map, length_app. simpl length.
    intros i r r' Hi Hr Hr'.
    apply records_lookup in Hr as (t & st & Hr & ->).
    apply records_lookup in Hr' as (t' & st' & Hr' & ->).
    rewrite lookup_app_l in Hr by lia. rewrite lookup_app_l in Hr' by lia.
    simpl. intros [= Heq].
    assert (H1 : log.*2 !! i = Some st)
      by (rewrite list_lookup_fmap, Hr; reflexivity).
    assert (H2 : log.*2 !! S i = Some st')
      by (rewrite list_lookup_fmap, Hr'; reflexivity).
    rewrite Hst in H1, H2.
    exact (alt_states_alternate _ _ _ _ H1 H2 Heq).
  - exists ts. unfold records. rewrite map_app. simpl.
    apply last_snoc.
Qed.

Lemma C2_alternation_witness :
  run_keys = Ret tt (final_world run_keys) /\
  exists ts, last (persisted (final_world run_keys) "log.csv")
             = Some [ts; "On"].
Proof.
  assert (Hrun : run_keys = Ret tt (final_world run_keys))
    by (vm_compute; reflexivity).
  split; [exact Hrun |].
  apply (C2_alternation env_keys 30 "COM3" 9600 1000000 "log.csv" world0
           (final_world run_keys) Hrun).
Defined.

(** The final row can repeat the state before it: with one override the
    last transition of the run switches the device on. *)
Example final_row_repeats :
  exists ts ts' rows,
    persisted (final_world run_keys) "log.csv"
    = rows ++ [[ts; "On"]; [ts'; "On"]].
Proof.
  eexists _, _, (take 20 (persisted (final_world run_keys) "log.csv")).
  vm_compute. reflexivity.
Qed.

(** C3, as the code has it.  The first transition, from the initial Off,
    is logged with the state On: after it the table and the file hold one
    row, which reads On, and the toggle is 1. *)
Theorem C3_first_row_on env fuel port baud p wf w0 ser s1 w1 :
  logger_start env fuel port baud p wf w0 = Ret (ser, s1) w1 ->
  toggle s1 = 1 /\
  exists ts, dic s1 = table_of [(ts, "On")] /\
             persisted w1 wf = [[ts; "On"]].
Proof.
  intros H. apply logger_start_ret in H. cbn zeta in H.
  destruct H as (_ & -> & _ & _ & Hf & _).
  split; [reflexivity |].
  eexists. split; [reflexivity |].
  rewrite (persisted_insert _ _ _ _ Hf). reflexivity.
Qed.

Lemma C3_first_row_on_witness :
  exists ser s1 w1,
    logger_start env_plain 30 "COM3" 9600 1000000 "log.csv" world0
    = Ret (ser, s1) w1 /\
    toggle s1 = 1 /\
    exists ts, dic s1 = table_of [(ts, "On")] /\
               persisted w1 "log.csv" = [[ts; "On"]].
Proof.
  pose (o := logger_start env_plain 30 "COM3" 9600 1000000 "log.csv" world0).
  exists (mk_serial "COM3" 9600),
    (match o with Ret (_, s1) _ => s1 | _ => mk_state 0 [] 0 0 end),
    (final_world o).
  assert (Hrun : logger_start env_plain 30 "COM3" 9600 1000000 "log.csv" world0
                 = Ret (mk_serial "COM3" 9600,
                        match o with Ret (_, s1) _ => s1 | _ => mk_state 0 [] 0 0 end)
                       (final_world o))
    by (vm_compute; reflexivity).
  split; [exact Hrun |].
  exact (C3_first_row_on _ _ _ _ _ _ _ _ _ _ Hrun).
Defined.

(** C3 as stated fails: the first row of the run of [env_plain] does not
    read Off. *)
Lemma C3_counterexample :
  ~ (forall ser s1 w1,
       logger_start env_plain 30 "COM3" 9600 1000000 "log.csv" world0
       = Ret (ser, s1) w1 ->
       exists ts, persisted w1 "log.csv" = [[ts; "Off"]]).
Proof.
  intros H.
  pose (o := logger_start env_plain 30 "COM3" 9600 1000000 "log.csv" world0).
  assert (Hrun : logger_start env_plain 30 "COM3" 9600 1000000 "log.csv" world0
                 = Ret (mk_serial "COM3" 9600,
                        match o with Ret (_, s1) _ => s1 | _ => mk_state 0 [] 0 0 end)
                       (final_world o))
    by (vm_compute; reflexivity).
  destruct (H _ _ _ Hrun) as [ts Hts]. clear Hrun H.
  vm_compute in Hts. discriminate Hts.
Qed.

(** C4, on the code.  In the run of [env_ticking], with a command cycle
    period of three seconds, the last state change is made at
    12:25:02.48, so that half a period after it is 12:25:03; the final
    row is dated from a clock reading taken after the loop, at
    12:25:02.50, and reads 12:25:04. *)
Theorem C4_final_row_dated_from_shutdown_clock :
  run_ticking = Ret tt (final_world run_ticking) /\
  option_map (fun sw => half_period_after_last_change env_ticking 50000 sw.1)
    (loop_exit env_ticking (100 * 100) "COM3" 9600 50000 "log.csv" world0)
  = Some "2020-11-04 12:25:03" /\
  last (persisted (final_world run_ticking) "log.csv")
  = Some ["2020-11-04 12:25:04"; "On"].
Proof. split; [| split]; vm_compute; reflexivity. Qed.

(** What [logger] does at the end, whatever the run: one row is added,
    dated half a period after the clock reading taken then, with the
    state On whatever the toggle; the file is written once more and
    nothing is sent. *)
Lemma final_row env p wf s w log w' :
  dic s = table_of log ->
  logger_finish env p wf s w = Ret tt w' ->
  let ts := get_timestamp
              (mk_datetime (dt_us (now_at env (clock_reads w)) + p * 60 / 2)) in
  files w' !! wf = Some (csv_of (log ++ [(ts, "On")])) /\
  disk_calls w' = S (disk_calls w) /\
  ser_out w' = ser_out w.
Proof.
  intros Hdic H. apply (logger_finish_ret _ _ _ _ _ _ _ Hdic) in H.
  cbn zeta in *. destruct H as (_ & _ & Hf & _ & Ho & _ & Hd & _).
  split; [rewrite Hf; apply lookup_insert_eq | auto].
Qed.

(** C5.  With the override key waiting and the period elapsed, one pass
    through the loop body makes one transition and no more: when it comes
    back the table has one more row, one more byte has been sent, one
    write to the device and one to the file have been made, and [cycle_n]
    is what it was; when it fails, one write to the device has been tried;
    and it always ends. *)
Theorem C5_override_priority env ser p wf s w log :
  dic s = table_of log ->
  keyboard env (key_polls w) = Some x30 ->
  p * 60 <= clock env (clock_reads w) - last_state_change_time s ->
  match loop_body env ser p wf s w with
  | Ret s' w' =>
      cycle_n s' = cycle_n s /\
      (exists ts, dic s' = table_of (log ++ [(ts, state_label (toggle s))])) /\
      ser_out w' = ser_out w ++ [x30] /\
      ser_calls w' = S (ser_calls w) /\
      disk_calls w' = S (disk_calls w)
  | Raise e w' =>
      ser_calls w' = S (ser_calls w) /\
      (ser_out w' = ser_out w \/ ser_out w' = ser_out w ++ [x30]) /\
      files w' = files w
  | OutOfFuel _ => False
  end.
Proof.
  intros Hdic Hkey _.
  destruct (loop_body env ser p wf s w) as [s' w' | e w' | w'] eqn:Hb.
  - apply (loop_body_ret _ _ _ _ _ _ _ _ _ Hdic) in Hb as (_ & _ & _ & Hb).
    unfold branch in Hb. simpl in Hb. rewrite Hkey in Hb. simpl in Hb.
    destruct Hb as [(_ & _ & Hd & _ & _ & _ & Ho & _ & _ & Hs & Hdc) Hc].
    eauto 10.
  - apply loop_body_raise in Hb as (Hf & Hs & [(_ & _ & Ho) | (_ & _ & Ho)]);
      auto.
  - exact (loop_body_returns _ _ _ _ _ _ _ Hb).
Qed.

Lemma C5_override_priority_witness :
  match loop_body env_keys (mk_serial "COM3" 9600) 1000000 "log.csv" s_due
          world0 with
  | Ret s' w' =>
      cycle_n s' = cycle_n s_due /\
      (exists ts,
         dic s' = table_of ([("2020-11-04 12:25:05", "On")]
                            ++ [(ts, state_label (toggle s_due))])) /\
      ser_out w' = ser_out world0 ++ [x30] /\
      ser_calls w' = S (ser_calls world0) /\
      disk_calls w' = S (disk_calls world0)
  | Raise e w' =>
      ser_calls w' = S (ser_calls world0) /\
      (ser_out w' = ser_out world0 \/ ser_out w' = ser_out world0 ++ [x30]) /\
      files w' = files world0
  | OutOfFuel _ => False
  end.
Proof.
  apply (C5_override_priority env_keys (mk_serial "COM3" 9600) 1000000
           "log.csv" s_due world0 [("2020-11-04 12:25:05", "On")]).
  - reflexivity.
  - reflexivity.
  - vm_compute. discriminate.
Defined.

(** C6.  A run stopped by a failed write to the device has made some
    number [n] of transitions before: the write that failed is the one
    after [n] accepted ones, the device has received [n] bytes, and the
    file holds [n] rows (it is as it was before the run when [n] is 0).
    No row stands for the failed transition. *)
Theorem C6_failed_send env fuel port baud p wf w0 w :
  logger env fuel port baud p wf w0 = Raise SerialWriteError w ->
  exists n,
    ser_accepts env (ser_calls w0 + n) = false /\
    ser_calls w = S (ser_calls w0 + n) /\
    ser_out w = ser_out w0 ++ replicate n x30 /\
    match n with
    | O => files w = files w0
    | S _ => exists log, length log = n /\ files w !! wf = Some (csv_of log)
    end.
Proof.
  unfold logger. intros H.
  apply bind_raise in H as [H | ([ser s1] & w1 & H1 & H)].
  { apply logger_start_raise in H as (Hf & H).
    destruct (H eq_refl) as (Ha & Ho & Hs).
    exists 0%nat. rewrite Nat.add_0_r, app_nil_r. auto. }
  pose proof (logger_start_inv _ _ _ _ _ _ _ _ _ _ H1) as (HI1 & _).
  apply bind_raise in H as [H | (s2 & w2 & _ & H)];
    [| apply logger_finish_raise in H; contradiction].
  unfold logger_loop in H.
  refine (while_raise _ _ (Inv w0 wf) _
            (fun e w => e = SerialWriteError -> _) _ _ _ _ _ _ HI1 H eq_refl).
  - intros; eapply loop_body_keeps; eauto.
  - clear. intros s w e w' (log & _ & Hlen & Hf & Hout & Hsc & _) _ Hb ->.
    apply loop_body_raise in Hb as (Hf' & Hs' & [(_ & Ha & Ho) | (Hne & _)]);
      [| contradiction].
    exists (length log). rewrite <- Hsc, Ho, Hf', Hs'.
    repeat split; auto.
    destruct (length log) eqn:Hl; [lia |].
    exists log. auto.
Qed.

Lemma C6_failed_send_witness :
  run_fail5 = Raise SerialWriteError (final_world run_fail5) /\
  exists n,
    ser_accepts env_fail5 (ser_calls world0 + n) = false /\
    ser_calls (final_world run_fail5) = S (ser_calls world0 + n) /\
    ser_out (final_world run_fail5) = ser_out world0 ++ replicate n x30 /\
    match n with
    | O => files (final_world run_fail5) = files world0
    | S _ => exists log,
        length log = n /\
        files (final_world run_fail5) !! "log.csv" = Some (csv_of log)
    end.
Proof.
  assert (Hrun : run_fail5 = Raise SerialWriteError (final_world run_fail5))
    by (vm_compute; reflexivity).
  split; [exact Hrun |].
  apply (C6_failed_send env_fail5 30 "COM3" 9600 1000000 "log.csv" world0
           (final_world run_fail5) Hrun).
Defined.

(** The run of [env_fail5]: four rows and four bytes, no fifth. *)
Example failed_fifth_send :
  length (persisted (final_world run_fail5) "log.csv") = 4%nat /\
  ser_out (final_world run_fail5) = [x30; x30; x30; x30].
Proof. split; vm_compute; reflexivity. Qed.

(** C7.  In a run that comes back, the bytes sent to the device are as
    many as the rows of the file but the final one.  At the start of every
    iteration of the loop and at its end the bytes sent are as many as the
    rows of the table: every transition has sent one byte and added one
    row.  The final row adds a row and sends nothing. *)
Theorem C7_bytes_match_rows env fuel port baud p wf w0 w :
  logger env fuel port baud p wf w0 = Ret tt w ->
  (forall sw, In sw (run_iterations env fuel port baud p wf w0) ->
     exists log,
       dic sw.1 = table_of log /\
       ser_out sw.2 = ser_out w0 ++ replicate (length log) x30) /\
  exists s2 w2 log,
    loop_exit env fuel port baud p wf w0 = Some (s2, w2) /\
    dic s2 = table_of log /\
    ser_out w2 = ser_out w0 ++ replicate (length log) x30 /\
    ser_out w = ser_out w2 /\
    length (persisted w wf) = S (length log).
Proof.
  intros H.
  apply logger_run in H
    as (ser & s1 & w1 & s2 & w2 & log & ts & H1 & H2 & _ & HI1 & _ & HI2
        & _ & Hdic & _ & _ & Hf & Ho & _).
  split.
  - intros sw Hin. rewrite (run_iterations_eq _ _ _ _ _ _ _ _ _ _ H1) in Hin.
    apply (iterations_inv _ _ (Inv w0 wf)) in Hin as [HI _];
      [| intros; eapply loop_body_keeps; eauto | exact HI1].
    destruct HI as (lg & Hlg & _ & _ & Hout & _).
    exists lg. auto.
  - destruct HI2 as (log' & Hdic' & _ & _ & Hout & _).
    rewrite Hdic in Hdic'. apply table_of_inj in Hdic'. subst log'.
    exists s2, w2, log.
    split; [unfold loop_exit; rewrite H1, H2; reflexivity |].
    repeat split; auto.
    rewrite (persisted_insert _ _ _ _ Hf). unfold records.
    rewrite length_map, length_app. simpl. lia.
Qed.

Lemma C7_bytes_match_rows_witness :
  run_keys = Ret tt (final_world run_keys) /\
  exists s2 w2 log,
    loop_exit env_keys 30 "COM3" 9600 1000000 "log.csv" world0
    = Some (s2, w2) /\
    dic s2 = table_of log /\
    ser_out w2 = ser_out world0 ++ replicate (length log) x30 /\
    ser_out (final_world run_keys) = ser_out w2 /\
    length (persisted (final_world run_keys) "log.csv") = S (length log).
Proof.
  assert (Hrun : run_keys = Ret tt (final_world run_keys))
    by (vm_compute; reflexivity).
  split; [exact Hrun |].
  apply (C7_bytes_match_rows env_keys 30 "COM3" 9600 1000000 "log.csv" world0
           (final_world run_keys) Hrun).
Defined.

(** The run of [env_keys]: twenty-one bytes, twenty-two rows. *)
Example bytes_and_rows_with_override :
  length (ser_out (final_world run_keys)) = 21%nat /\
  length (persisted (final_world run_keys) "log.csv") = 22%nat.
Proof. split; vm_compute; reflexivity. Qed.

(** C8, as the code has it.  The first transition is made as soon as the
    operator has let the run start and one second has been slept: its
    byte is sent before the clock is read at all, and the two readings
    taken with it only date it.  In the loop, with no key waiting, a pass
    sends a byte only if the clock reading it takes is at least the
    command cycle period after the last state change. *)
Theorem C8_first_transition_unconditional env fuel port baud p wf w0 ser s1 w1 :
  logger_start env fuel port baud p wf w0 = Ret (ser, s1) w1 ->
  (ser_out w1 = ser_out w0 ++ [x30] /\
   slept w1 = slept w0 + 1000000 /\
   clock_reads w1 = S (S (clock_reads w0)) /\
   last_state_change_time s1 = clock env (clock_reads w0)) /\
  (forall s w s' w' log,
     dic s = table_of log ->
     keyboard env (key_polls w) = None ->
     loop_body env ser p wf s w = Ret s' w' ->
     ser_out w' <> ser_out w ->
     p * 60 <= clock env (clock_reads w) - last_state_change_time s).
Proof.
  intros H. split.
  - apply logger_start_ret in H. cbn zeta in H.
    destruct H as (_ & -> & _ & Ho & _ & Hc & _ & _ & _ & Hs). auto.
  - clear. intros s w s' w' log Hdic Hkey Hb Hne.
    apply (loop_body_ret _ _ _ _ _ _ _ _ _ Hdic) in Hb as (_ & _ & _ & Hb).
    unfold branch in Hb. simpl in Hb. rewrite Hkey in Hb.
    destruct (p * 60 <=? _) eqn:He; [apply Z.leb_le in He; exact He |].
    destruct Hb as [(_ & Ho & _) _]. contradiction.
Qed.

Lemma C8_first_transition_unconditional_witness :
  exists ser s1 w1,
    logger_start env_ticking 30 "COM3" 9600 1000000 "log.csv" world0
    = Ret (ser, s1) w1 /\
    ser_out w1 = ser_out world0 ++ [x30] /\
    slept w1 = slept world0 + 1000000 /\
    clock_reads w1 = S (S (clock_reads world0)) /\
    last_state_change_time s1 = clock env_ticking (clock_reads world0).
Proof.
  pose (o := logger_start env_ticking 30 "COM3" 9600 1000000 "log.csv" world0).
  exists (mk_serial "COM3" 9600),
    (match o with Ret (_, s1) _ => s1 | _ => mk_state 0 [] 0 0 end),
    (final_world o).
  assert (Hrun : logger_start env_ticking 30 "COM3" 9600 1000000 "log.csv" world0
                 = Ret (mk_serial "COM3" 9600,
                        match o with Ret (_, s1) _ => s1 | _ => mk_state 0 [] 0 0 end)
                       (final_world o))
    by (vm_compute; reflexivity).
  split; [exact Hrun |].
  exact (proj1 (C8_first_transition_unconditional _ _ _ _ _ _ _ _ _ _ Hrun)).
Defined.

(** C8 as stated fails: with a command cycle period of 60 s and a clock
    read every hundredth of a second, the first transition is made after
    one second of sleep and with no two clock readings 60 s apart. *)
Lemma C8_counterexample :
  ~ (forall ser s1 w1,
       logger_start env_ticking 30 "COM3" 9600 1000000 "log.csv" world0
       = Ret (ser, s1) w1 ->
       ser_out w1 <> [] ->
       60000000 <= slept w1 \/
       exists j k, (j < k < clock_reads w1)%nat /\
                   60000000 <= clock env_ticking k - clock env_ticking j).
Proof.
  intros H.
  pose (o := logger_start env_ticking 30 "COM3" 9600 1000000 "log.csv" world0).
  assert (Hrun : logger_start env_ticking 30 "COM3" 9600 1000000 "log.csv" world0
                 = Ret (mk_serial "COM3" 9600,
                        match o with Ret (_, s1) _ => s1 | _ => mk_state 0 [] 0 0 end)
                       (final_world o))
    by (vm_compute; reflexivity).
  specialize (H _ _ _ Hrun). clear Hrun.
  assert (Hout : ser_out (final_world o) <> []) by (vm_compute; discriminate).
  specialize (H Hout). clear Hout.
  assert (Hs : slept (final_world o) = 1000000) by (vm_compute; reflexivity).
  assert (Hc : clock_reads (final_world o) = 2%nat) by (vm_compute; reflexivity).
  rewrite Hs, Hc in H. clear Hs Hc.
  destruct H as [H | (j & k & Hjk & H)]; [lia |].
  assert (j = 0%nat /\ k = 1%nat) as [-> ->] by lia.
  vm_compute in H. apply H. reflexivity.
Qed.

(** With a clock that stands still the first transition is made all the
    same, and no other: the loop does not end. *)
Example frozen_clock_run :
  run_frozen = OutOfFuel (final_world run_frozen) /\
  ser_out (final_world run_frozen) = [x30] /\
  persisted (final_world run_frozen) "log.csv"
  = [["2020-11-04 12:24:05"; "On"]].
Proof. split; [| split]; vm_compute; reflexivity. Qed.

(** C9.  In a run that comes back, the file holds the whole table at the
    start of every iteration of the loop, hence after every transition,
    and at the end, whatever it held before; one write has been made for
    each row.  The file's first record is the header Timestamp, System
    State, and each of its rows is a timestamp of the form
    YYYY-MM-DD HH:MM:SS and a state, On or Off. *)
Theorem C9_persisted_table env fuel port baud p wf w0 w :
  logger env fuel port baud p wf w0 = Ret tt w ->
  (forall sw, In sw (run_iterations env fuel port baud p wf w0) ->
     exists log,
       dic sw.1 = table_of log /\
       files sw.2 !! wf = Some (header :: records log) /\
       disk_calls sw.2 = (disk_calls w0 + length log)%nat) /\
  exists log,
    files w !! wf = Some (header :: records log) /\
    header = ["Timestamp"; "System State"] /\
    disk_calls w = (disk_calls w0 + length log)%nat /\
    Forall (fun r => is_timestamp r.1 = true /\ (r.2 = "On" \/ r.2 = "Off"))
      log.
Proof.
  intros H.
  apply logger_run in H
    as (ser & s1 & w1 & s2 & w2 & log & ts & H1 & _ & _ & HI1 & _ & HI2
        & _ & Hdic & _ & Hts & Hf & _ & Hd).
  split.
  - intros sw Hin. rewrite (run_iterations_eq _ _ _ _ _ _ _ _ _ _ H1) in Hin.
    apply (iterations_inv _ _ (Inv w0 wf)) in Hin as [HI _];
      [| intros; eapply loop_body_keeps; eauto | exact HI1].
    destruct HI as (lg & Hlg & _ & Hfl & _ & _ & Hdc & _).
    exists lg. auto.
  - destruct HI2 as (log' & Hdic' & _ & _ & _ & _ & Hdc & Hst & _ & Hfmt & _).
    rewrite Hdic in Hdic'. apply table_of_inj in Hdic'. subst log'.
    exists (log ++ [(ts, "On")]).
    split; [rewrite Hf; apply lookup_insert_eq |].
    split; [reflexivity |].
    split; [rewrite length_app; simpl; lia |].
    apply Forall_app. split.
    + apply Forall_forall. intros [t st] Hin. simpl. split.
      * rewrite Forall_forall in Hfmt. apply (Hfmt _ Hin).
      * apply (alt_states_values (length log)). rewrite <- Hst.
        apply list_elem_of_In. apply list_elem_of_fmap.
        exists (t, st). auto.
    + constructor; [| constructor]. simpl. auto.
Qed.

Lemma C9_persisted_table_witness :
  run_keys = Ret tt (final_world run_keys) /\
  exists log,
    files (final_world run_keys) !! "log.csv" = Some (header :: records log) /\
    header = ["Timestamp"; "System State"] /\
    disk_calls (final_world run_keys) = (disk_calls world0 + length log)%nat /\
    Forall (fun r => is_timestamp r.1 = true /\ (r.2 = "On" \/ r.2 = "Off"))
      log.
Proof.
  assert (Hrun : run_keys = Ret tt (final_world run_keys))
    by (vm_compute; reflexivity).
  split; [exact Hrun |].
  apply (C9_persisted_table env_keys 30 "COM3" 9600 1000000 "log.csv" world0
           (final_world run_keys) Hrun).
Defined.

(** C10.  With a key other than the override key waiting, one pass
    through the loop body takes the key and does nothing else: the loop
    state is unchanged, the clock is not read, nothing is sent, written or
    shown, whatever the time since the last transition. *)
Theorem C10_other_key_skips_timer env ser p wf s w b :
  keyboard env (key_polls w) = Some b ->
  b <> x30 ->
  loop_body env ser p wf s w =
  Ret s (mk_world (clock_reads w) (lines_read w) (S (key_polls w))
           (ser_calls w) (disk_calls w) (ser_out w) (files w) (console w)
           (slept w + 10000)).
Proof.
  intros Hkey Hb.
  unfold loop_body, mbind, M_bind, time_sleep, kbhit, getch. simpl.
  rewrite Hkey. simpl. rewrite Hkey.
  destruct (Byte.eqb b x30) eqn:E; [| reflexivity].
  apply Byte.byte_dec_bl in E. contradiction.
Qed.

Lemma C10_other_key_skips_timer_witness :
  loop_body env_keys (mk_serial "COM3" 9600) 1000000 "log.csv" s_due
    (mk_world 0 0 1 0 0 [] ∅ [] 0) =
  Ret s_due (mk_world 0 0 2 0 0 [] ∅ [] 10000).
Proof.
  apply (C10_other_key_skips_timer env_keys (mk_serial "COM3" 9600) 1000000
           "log.csv" s_due (mk_world 0 0 1 0 0 [] ∅ [] 0) x41).
  - reflexivity.
  - discriminate.
Defined.

(** In that pass the period had elapsed: without the key the same pass
    makes a transition. *)
Example other_key_postpones_transition :
  branch env_keys 1000000 (s_due, mk_world 0 0 1 0 0 [] ∅ [] 0) = KeyIgnored /\
  branch env_plain 1000000 (s_due, mk_world 0 0 1 0 0 [] ∅ [] 0) = Auto.
Proof. split; reflexivity. Qed.


(** ** Further properties: the date string and [main] *)

Lemma string_app_cons x (a b : string) : String x a +:+ b = String x (a +:+ b).
Proof. reflexivity. Qed.

Lemma string_app_assoc (a b c : string) : (a +:+ b) +:+ c = a +:+ (b +:+ c).
Proof.
  induction a as [| x a IH]; [reflexivity |].
  rewrite !string_app_cons, IH. reflexivity.
Qed.

Lemma string_length_app (a b : string) :
  String.length (a +:+ b) = (String.length a + String.length b)%nat.
Proof.
  induction a as [| x a IH]; [reflexivity |].
  rewrite string_app_cons. simpl. rewrite IH. reflexivity.
Qed.

Lemma substring_app_prefix (a b : string) :
  substring 0 (String.length a) (a +:+ b) = a.
Proof.
  induction a as [| x a IH]; [destruct b; reflexivity |].
  rewrite string_app_cons. simpl. rewrite IH. reflexivity.
Qed.

Lemma drop_last_app (a b : string) : drop_last (String.length b) (a +:+ b) = a.
Proof.
  unfold drop_last. rewrite string_length_app, Nat.add_sub.
  apply substring_app_prefix.
Qed.

Lemma str_table4 :
  forallb (fun k => String.eqb (str (Z.of_nat k)) (zfill4 (Z.of_nat k)))
    (seq 1000 (9 * 1000)) = true.
Proof. vm_compute. reflexivity. Qed.

Lemma str_table2 :
  forallb (fun k =>
             String.eqb ((if Z.of_nat k <? 10 then "0" else "")
                         +:+ str (Z.of_nat k))
               (zfill2 (Z.of_nat k)))
    (seq 0 100) = true.
Proof. vm_compute. reflexivity. Qed.

Lemma str_zfill4 y : 1000 <= y <= 9999 -> str y = zfill4 y.
Proof.
  intros Hy. pose proof str_table4 as Ht. rewrite forallb_forall in Ht.
  specialize (Ht (Z.to_nat y)). rewrite Z2Nat.id in Ht by lia.
  apply String.eqb_eq, Ht, in_seq. lia.
Qed.

Lemma pad_str_zfill2 n :
  0 <= n < 100 -> (if n <? 10 then "0" else "") +:+ str n = zfill2 n.
Proof.
  intros Hn. pose proof str_table2 as Ht. rewrite forallb_forall in Ht.
  specialize (Ht (Z.to_nat n)). rewrite Z2Nat.id in Ht by lia.
  apply String.eqb_eq, Ht, in_seq. lia.
Qed.

Lemma datetime_now_ret env w d w' :
  datetime_now env w = Ret d w' ->
  d = now_at env (clock_reads w) /\ dt_valid d /\
  w' = mk_world (S (clock_reads w)) (lines_read w) (key_polls w) (ser_calls w)
         (disk_calls w) (ser_out w) (files w) (console w) (slept w).
Proof.
  unfold datetime_now, now_at. intros H.
  destruct (dt_validb _) eqn:Hv; [| discriminate].
  injection H as <- <-. unfold dt_validb, dt_valid in *. simpl in *.
  repeat split; lia.
Qed.

(** What [get_date_string] returns, read off its five clock readings. *)
Lemma get_date_string_ret env w date w' :
  get_date_string env w = Ret date w' ->
  let k := clock_reads w in
  (forall i, (i < 5)%nat -> dt_valid (now_at env (k + i))) /\
  date = str (year (now_at env k))
         +:+ (if month (now_at env (k + 3)) <? 10 then "0" else "")
         +:+ str (month (now_at env (k + 1)))
         +:+ (if day (now_at env (k + 4)) <? 10 then "0" else "")
         +:+ str (day (now_at env (k + 2))) /\
  w' = mk_world (k + 5) (lines_read w) (key_polls w) (ser_calls w)
         (disk_calls w) (ser_out w) (files w) (console w) (slept w).
Proof.
  unfold get_date_string. intros H.
  apply bind_ret in H as (d0 & w0 & H0 & H).
  apply datetime_now_ret in H0 as (-> & V0 & ->).
  apply bind_ret in H as (d1 & w1 & H1 & H).
  apply datetime_now_ret in H1 as (-> & V1 & ->). norm_world.
  apply bind_ret in H as (d2 & w2 & H2 & H).
  apply datetime_now_ret in H2 as (-> & V2 & ->). norm_world.
  apply bind_ret in H as (d3 & w3 & H3 & H).
  apply datetime_now_ret in H3 as (-> & V3 & ->). norm_world.
  apply bind_ret in H as (d4 & w4 & H4 & H).
  apply datetime_now_ret in H4 as (-> & V4 & ->). norm_world.
  unfold mret, M_ret in H. injection H as <- <-.
  cbn zeta. cbn [clock_reads] in *.
  replace (clock_reads w + 1)%nat with (S (clock_reads w)) by lia.
  replace (clock_reads w + 2)%nat with (S (S (clock_reads w))) by lia.
  replace (clock_reads w + 3)%nat with (S (S (S (clock_reads w)))) by lia.
  replace (clock_reads w + 4)%nat with (S (S (S (S (clock_reads w))))) by lia.
  replace (clock_reads w + 5)%nat with (S (S (S (S (S (clock_reads w)))))) by lia.
  split; [| split; reflexivity].
  intros i Hi.
  assert (Hc : (i = 0 \/ i = 1 \/ i = 2 \/ i = 3 \/ i = 4)%nat) by lia.
  destruct Hc as [-> | [-> | [-> | [-> | ->]]]].
  - replace (clock_reads w + 0)%nat with (clock_reads w) by lia. assumption.
  - replace (clock_reads w + 1)%nat with (S (clock_reads w)) by lia.
    assumption.
  - replace (clock_reads w + 2)%nat with (S (S (clock_reads w))) by lia.
    assumption.
  - replace (clock_reads w + 3)%nat with (S (S (S (clock_reads w)))) by lia.
    assumption.
  - replace (clock_reads w + 4)%nat with (S (S (S (S (clock_reads w))))) by lia.
    assumption.
Qed.

(** X1.  When its five clock readings fall on one day of a year from 1000
    on, [get_date_string] returns what strftime gives for the format
    %Y%m%d, as its docstring says, and that has eight characters. *)
Theorem get_date_string_strftime env w date w' :
  get_date_string env w = Ret date w' ->
  same_day env (clock_reads w) ->
  1000 <= year (now_at env (clock_reads w)) ->
  date = strftime (now_at env (clock_reads w)) "%Y%m%d" /\
  String.length date = 8%nat.
Proof.
  intros H Hsame Hy.
  apply get_date_string_ret in H. cbn zeta in H.
  destruct H as (Hv & -> & _).
  pose proof (Hv 0%nat ltac:(lia)) as V0. rewrite Nat.add_0_r in V0.
  pose proof (CalendarFacts.year_range _ V0) as Hyr.
  pose proof (CalendarFacts.month_range _ V0) as Hmr.
  pose proof (CalendarFacts.day_range _ V0) as Hdr.
  unfold month, day in *.
  rewrite !Hsame by lia.
  fold (month (now_at env (clock_reads w))) in *.
  fold (day (now_at env (clock_reads w))) in *.
  set (d := now_at env (clock_reads w)) in *.
  rewrite str_zfill4 by lia.
  rewrite <- (string_app_assoc _ (str (month d))).
  rewrite pad_str_zfill2 by lia.
  rewrite pad_str_zfill2 by lia.
  split; reflexivity.
Qed.

Lemma get_date_string_strftime_witness :
  exists w',
    get_date_string env_plain world0 = Ret "20201104" w' /\
    "20201104" = strftime (now_at env_plain (clock_reads world0)) "%Y%m%d" /\
    String.length "20201104" = 8%nat.
Proof.
  eexists. split; [vm_compute; reflexivity |].
  eapply (get_date_string_strftime env_plain world0).
  - vm_compute. reflexivity.
  - intros i Hi.
    assert (Hc : (i = 0 \/ i = 1 \/ i = 2 \/ i = 3 \/ i = 4)%nat) by lia.
    destruct Hc as [-> | [-> | [-> | [-> | ->]]]]; vm_compute; reflexivity.
  - vm_compute. discriminate.
Defined.

(** Across midnight the pieces come from different days: here the month
    is read on October 31 and the day on November 1. *)
Example get_date_string_across_midnight :
  exists w', get_date_string env_midnight world0 = Ret "20201001" w'.
Proof. eexists. vm_compute. reflexivity. Qed.

Lemma get_date_string_world env w date w' :
  get_date_string env w = Ret date w' ->
  lines_read w' = lines_read w /\ ser_out w' = ser_out w /\
  files w' = files w /\ ser_calls w' = ser_calls w /\
  disk_calls w' = disk_calls w /\ console w' = console w.
Proof.
  intros H. apply get_date_string_ret in H as (_ & _ & ->).
  simpl. auto 10.
Qed.

Lemma custom_file_name (dir date suffix : string) :
  drop_last 4 (dir +:+ date +:+ "_log.csv") +:+ "_" +:+ suffix +:+ ".csv"
  = dir +:+ date +:+ "_log_" +:+ suffix +:+ ".csv".
Proof.
  replace (dir +:+ date +:+ "_log.csv")
    with ((dir +:+ date +:+ "_log") +:+ ".csv")
    by (rewrite !string_app_assoc; reflexivity).
  change 4%nat with (String.length ".csv").
  rewrite drop_last_app, !string_app_assoc. reflexivity.
Qed.

Lemma main_setup_ret env float args w r w' :
  main_setup env float args w = Ret r w' ->
  let answer := stdin env (lines_read w) in
  let suffix := stdin env (S (lines_read w)) in
  exists x date w1,
    float (args_cycle_period args) = Some x /\
    get_date_string env w = Ret date w1 /\
    r = (args_COM_Port args, args_baud args, x / 2,
         args_write_dir args +:+ date
         +:+ (if String.eqb answer "y" then "_log.csv"
              else "_log_" +:+ suffix +:+ ".csv")) /\
    lines_read w' =
      ((if String.eqb answer "y" then 1 else 2) + lines_read w)%nat /\
    ser_out w' = ser_out w /\ files w' = files w.
Proof.
  intros H answer suffix. unfold main_setup in H.
  apply bind_ret in H as (x & w0 & Hx & H).
  unfold py_float in Hx. destruct (float _) as [x' |] eqn:Hf;
    [| discriminate]. unfold mret, M_ret in Hx. injection Hx as <- <-.
  apply bind_ret in H as (date & w1 & Hd & H).
  pose proof (get_date_string_world _ _ _ _ Hd) as (Hl & Ho & Hfi & _).
  exists x', date, w1. split; [reflexivity |]. split; [exact Hd |].
  step H. step H. norm_world.
  subst answer suffix. rewrite <- Hl.
  apply bind_ret in H as (wf & w2 & Hw & H).
  unfold mret, M_ret in H. injection H as <- <-.
  destruct (String.eqb (stdin env (lines_read w1)) "y").
  - step Hw. prim Hw. simplify_eq. simpl. auto.
  - step Hw. step Hw. step Hw. prim Hw. simplify_eq. norm_world.
    rewrite custom_file_name. simpl. auto.
Qed.



(** The two file names of the sample operators. *)
Example main_file_names :
  (exists w, main_setup env_y float_two default_args world0
             = Ret ("COM3", 9600, 1000000, "C:\Data\TSLog\20201104_log.csv") w)
  /\
  (exists w, main_setup env_suffix float_two default_args world0
             = Ret ("COM3", 9600, 1000000,
                    "C:\Data\TSLog\20201104_log_run7.csv") w).
Proof. split; eexists; vm_compute; reflexivity. Qed.

(** ** Further properties: the run, however it ends *)

Section WhileFinal.
Context {St : Type} (cond : St -> bool) (body : St -> M St).
Variable P : St -> World -> Prop.
Variable R : World -> Prop.
Hypothesis P_R : forall s w, P s w -> R w.
Hypothesis body_ok : forall s w,
  P s w -> cond s = true ->
  match body s w with
  | Ret s' w' => P s' w'
  | Raise _ w' => R w'
  | OutOfFuel w' => R w'
  end.

Lemma while_final fuel s w :
  P s w ->
  match while fuel cond body s w with
  | Ret s' w' => P s' w' /\ cond s' = false
  | Raise _ w' => R w'
  | OutOfFuel w' => R w'
  end.
Proof.
  revert s w. induction fuel as [| fuel IH]; intros s w HP; simpl;
    destruct (cond s) eqn:Hc; try (split; assumption).
  - exact (P_R s w HP).
  - pose proof (body_ok s w HP Hc) as Hb.
    destruct (body s w) as [s1 w1 | |]; [apply IH | |]; exact Hb.
Qed.
End WhileFinal.

Lemma bind_final {A B} (m : M A) (f : A -> M B) w :
  final_world ((m ≫= f) w) =
  match m w with
  | Ret a w' => final_world (f a w')
  | Raise _ w' => w'
  | OutOfFuel w' => w'
  end.
Proof. unfold mbind, M_bind. destruct (m w); reflexivity. Qed.

Lemma change_system_state_raise_world env ser tg dc p wf w e w' :
  change_system_state env ser tg dc p wf w = Raise e w' ->
  ser_calls w' = S (ser_calls w) /\
  (ser_out w' = ser_out w \/ ser_out w' = ser_out w ++ [x30]) /\
  files w' = files w /\ lines_read w' = lines_read w /\
  key_polls w' = key_polls w.
Proof.
  unfold change_system_state. intros H.
  repeat (step_raise H; try solve [simpl; intuition congruence]).
  all: destruct (negb (tg =? 0)).
  all: repeat (step_raise H; try solve [simpl; intuition congruence]).
  all: prim H; simplify_eq.
Qed.

(** A state change, however it ends, has tried one write to the device,
    has sent nothing or the command byte, and leaves every file but
    [wf] as it was. *)
Lemma change_system_state_any env ser tg dc p wf w :
  let w' := final_world (change_system_state env ser tg dc p wf w) in
  ser_calls w' = S (ser_calls w) /\
  (ser_out w' = ser_out w \/ ser_out w' = ser_out w ++ [x30]) /\
  untouched_but wf w w' /\ lines_read w' = lines_read w /\
  key_polls w' = key_polls w.
Proof.
  cbn zeta.
  destruct (change_system_state env ser tg dc p wf w) as [r w' | e w' | w']
    eqn:H; simpl.
  - unfold change_system_state in H.
    step H. step H. step H. step H. step H. step H.
    destruct (negb (tg =? 0));
      (step H; step H; step H; step H; step H; step H; prim H; simplify_eq;
       simpl; repeat split; auto;
       intros path Hne; simpl; apply lookup_insert_ne; congruence).
  - apply change_system_state_raise_world in H
      as (Hs & Ho & Hf & Hl & Hk).
    repeat split; auto. intros path _. rewrite Hf. reflexivity.
  - exfalso. exact (change_system_state_returns _ _ _ _ _ _ _ _ H).
Qed.

Lemma loop_body_any env ser p wf s w :
  let w' := final_world (loop_body env ser p wf s w) in
  (ser_out w' = ser_out w \/ ser_out w' = ser_out w ++ [x30]) /\
  (ser_calls w' <= S (ser_calls w))%nat /\
  key_polls w' = S (key_polls w) /\
  lines_read w' = lines_read w /\
  untouched_but wf w w'.
Proof.
  cbn zeta. remember (final_world (loop_body env ser p wf s w)) as w' eqn:Hw.
  unfold loop_body in Hw.
  rewrite bind_final in Hw. unfold time_sleep in Hw. cbn iota in Hw.
  rewrite bind_final in Hw. unfold kbhit in Hw. norm_world_in Hw.
  destruct (keyboard env (key_polls w)) as [b |] eqn:Hkey.
  - rewrite bind_final in Hw. unfold getch in Hw. norm_world_in Hw.
    rewrite Hkey in Hw.
    destruct (Byte.eqb b x30).
    + rewrite bind_final in Hw.
      match type of Hw with
      | context [change_system_state env ser ?t ?d p wf ?w1] =>
          pose proof (change_system_state_any env ser t d p wf w1) as Hc;
          destruct (change_system_state env ser t d p wf w1)
            as [[[t' d'] l'] w2 | e w2 | w2]
      end; cbn zeta in Hc; simpl in Hc, Hw; subst w';
        destruct Hc as (Hs & Ho & Hu & Hl & Hk);
        repeat split; auto; try lia.
    + simpl in Hw. subst w'. simpl. repeat split; auto.
  - rewrite bind_final in Hw. unfold time_time in Hw. norm_world_in Hw.
    cbn iota in Hw.
    destruct (p * 60 <=? _).
    + rewrite bind_final in Hw.
      match type of Hw with
      | context [change_system_state env ser ?t ?d p wf ?w1] =>
          pose proof (change_system_state_any env ser t d p wf w1) as Hc;
          destruct (change_system_state env ser t d p wf w1)
            as [[[t' d'] l'] w2 | e w2 | w2]
      end; cbn zeta in Hc; simpl in Hc, Hw; subst w';
        destruct Hc as (Hs & Ho & Hu & Hl & Hk);
        repeat split; auto; try lia.
    + simpl in Hw. subst w'. simpl. repeat split; auto.
Qed.

(** X3.  One pass through the loop body, in any loop state and however
    it ends, sends nothing or the one command byte, tries at most one
    write to the device, polls the keyboard once, reads no line and
    leaves every file but the log file as it was. *)
Theorem loop_body_one_command env ser p wf s w :
  let w' := final_world (loop_body env ser p wf s w) in
  (ser_out w' = ser_out w \/ ser_out w' = ser_out w ++ [x30]) /\
  (ser_calls w' <= S (ser_calls w))%nat /\
  key_polls w' = S (key_polls w) /\
  lines_read w' = lines_read w /\
  untouched_but wf w w'.
Proof. exact (loop_body_any env ser p wf s w). Qed.

Lemma untouched_but_refl wf w : untouched_but wf w w.
Proof. intros path _. reflexivity. Qed.

Lemma untouched_but_trans wf w0 w1 w2 :
  untouched_but wf w0 w1 -> untouched_but wf w1 w2 -> untouched_but wf w0 w2.
Proof. intros H1 H2 path Hne. rewrite (H2 path Hne). exact (H1 path Hne). Qed.

Lemma untouched_but_files wf w0 w1 w2 :
  untouched_but wf w0 w1 -> files w2 = files w1 -> untouched_but wf w0 w2.
Proof. intros H1 H2 path Hne. rewrite H2. exact (H1 path Hne). Qed.

Lemma untouched_but_insert wf w0 w1 w2 c :
  untouched_but wf w0 w1 -> files w2 = <[wf := c]> (files w1) ->
  untouched_but wf w0 w2.
Proof.
  intros H1 H2 path Hne. rewrite H2, lookup_insert_ne by congruence.
  exact (H1 path Hne).
Qed.

(** The operator's gate, however it ends, touches neither device nor
    disk nor clock. *)
Lemma gate_any env fuel cmd w :
  same_devices w
    (final_world
       (while fuel (fun cmd => negb (String.eqb cmd ""))
          (fun _ => print prompt;; input env) cmd w)).
Proof.
  assert (Hw :
    match while fuel (fun cmd => negb (String.eqb cmd ""))
            (fun _ => print prompt;; input env) cmd w with
    | Ret s' w' => same_devices w w' /\ negb (String.eqb s' "") = false
    | Raise _ w' => same_devices w w'
    | OutOfFuel w' => same_devices w w'
    end).
  { apply (while_final _ _ (fun _ w1 => same_devices w w1)
             (fun w1 => same_devices w w1)).
    - intros s0 w1 H. exact H.
    - intros s0 w1 Hs Hc. unfold mbind, M_bind, print, emit, input.
      unfold same_devices in *. simpl. exact Hs.
    - unfold same_devices. tauto. }
  destruct (while _ _ _ _ _) as [? ? | ? ? | ?]; simpl; tauto.
Qed.

Lemma logger_start_raise_world env fuel port baud p wf w0 e w1 :
  logger_start env fuel port baud p wf w0 = Raise e w1 ->
  files w1 = files w0 /\
  (ser_out w1 = ser_out w0 \/ ser_out w1 = ser_out w0 ++ [x30]).
Proof.
  unfold logger_start. intros H.
  step_raise H; [auto |].
  step_raise H. step_raise H.
  apply bind_raise in H as [H | (? & wg & Hg & H)];
    [apply gate_raise in H; contradiction |].
  apply gate_ret in Hg. unfold same_devices in Hg. simpl in Hg.
  destruct Hg as (_ & _ & _ & _ & Hso & Hf & _).
  step_raise H.
  apply bind_raise in H as [H | ([[? ?] ?] & ? & _ & H)];
    [| prim H; simplify_eq].
  apply change_system_state_raise_world in H. simpl in H.
  destruct H as (_ & Ho & Hfl & _).
  rewrite Hfl, Hf. rewrite Hso in Ho. auto.
Qed.

Lemma logger_start_out_world env fuel port baud p wf w0 w1 :
  logger_start env fuel port baud p wf w0 = OutOfFuel w1 ->
  files w1 = files w0 /\ ser_out w1 = ser_out w0 /\
  clock_reads w1 = clock_reads w0.
Proof.
  unfold logger_start. intros H.
  step_out H. step_out H. step_out H.
  apply bind_out in H as [H | (? & wg & Hg & H)].
  - match type of H with
    | while fuel ?c ?b ?s ?w = _ =>
        pose proof (gate_any env fuel s w) as Hg
    end.
    rewrite H in Hg. unfold same_devices in Hg. simpl in Hg. tauto.
  - step_out H.
    apply bind_out in H as [H | ([[? ?] ?] & ? & _ & H)];
      [| prim H; simplify_eq].
    exfalso. exact (change_system_state_returns _ _ _ _ _ _ _ _ H).
Qed.

Lemma logger_finish_raise_world env p wf s w e w' :
  logger_finish env p wf s w = Raise e w' ->
  files w' = files w /\ ser_out w' = ser_out w.
Proof.
  unfold logger_finish. intros H.
  repeat (step_raise H; try solve [simpl; auto]).
  all: prim H; cases_in H; simplify_eq; simpl; auto.
Qed.

Lemma logger_finish_returns env p wf s w w' :
  logger_finish env p wf s w <> OutOfFuel w'.
Proof.
  unfold logger_finish. intros H.
  repeat (step_out H).
  all: prim H; cases_in H; simplify_eq.
Qed.

Lemma Inv_reached w0 wf s w : Inv w0 wf s w -> reached w0 wf w.
Proof.
  intros (log & _ & _ & Hf & Ho & _).
  exists (length log). split; [exact Ho |].
  right. exists log. split; [exact Hf | lia].
Qed.

(** The loop, however it ends. *)
Lemma logger_loop_any env fuel ser p wf w0 s w :
  Inv w0 wf s w -> untouched_but wf w0 w ->
  match logger_loop env fuel ser p wf s w with
  | Ret s' w' => Inv w0 wf s' w' /\ untouched_but wf w0 w'
  | Raise _ w' => reached w0 wf w' /\ untouched_but wf w0 w'
  | OutOfFuel w' => reached w0 wf w' /\ untouched_but wf w0 w'
  end.
Proof.
  intros HI HU. unfold logger_loop.
  pose proof (while_final (fun s => cycle_n s <? 20)
                (loop_body env ser p wf)
                (fun s w => Inv w0 wf s w /\ untouched_but wf w0 w)
                (fun w => reached w0 wf w /\ untouched_but wf w0 w)) as Hw.
  assert (H1 : forall s w,
             Inv w0 wf s w /\ untouched_but wf w0 w ->
             reached w0 wf w /\ untouched_but wf w0 w).
  { intros s1 w1 [Hi Hu]. split; [exact (Inv_reached _ _ _ _ Hi) | exact Hu]. }
  assert (H2 : forall s w,
             Inv w0 wf s w /\ untouched_but wf w0 w ->
             (cycle_n s <? 20) = true ->
             match loop_body env ser p wf s w with
             | Ret s' w' => Inv w0 wf s' w' /\ untouched_but wf w0 w'
             | Raise _ w' => reached w0 wf w' /\ untouched_but wf w0 w'
             | OutOfFuel w' => reached w0 wf w' /\ untouched_but wf w0 w'
             end).
  { clear. intros s w [Hi Hu] Hc.
    pose proof (loop_body_any env ser p wf s w) as Hone.
    cbn zeta in Hone.
    destruct (loop_body env ser p wf s w) as [s' w' | e w' | w'] eqn:Hb;
      simpl in Hone; destruct Hone as (Ho & _ & _ & _ & Hu').
    - split; [exact (loop_body_keeps _ _ _ _ _ _ _ _ _ Hi Hc Hb) |].
      exact (untouched_but_trans _ _ _ _ Hu Hu').
    - split; [| exact (untouched_but_trans _ _ _ _ Hu Hu')].
      apply loop_body_raise in Hb as (Hf & _).
      destruct Hi as (log & _ & _ & Hfl & Hout & _).
      destruct Ho as [Ho | Ho].
      + exists (length log). rewrite Ho. split; [exact Hout |].
        right. exists log. rewrite Hf. split; [exact Hfl | lia].
      + exists (S (length log)). rewrite Ho, Hout, <- app_assoc.
        rewrite replicate_S_end. split; [reflexivity |].
        right. exists log. rewrite Hf. split; [exact Hfl | lia].
    - exfalso. exact (loop_body_returns _ _ _ _ _ _ _ Hb). }
  specialize (Hw H1 H2 fuel s w (conj HI HU)).
  destruct (while _ _ _ _ _) as [s' w' | e w' | w']; tauto.
Qed.

(** A run of [logger], however it ends. *)
Lemma logger_any env fuel port baud p wf w0 :
  let w := final_world (logger env fuel port baud p wf w0) in
  reached w0 wf w /\ untouched_but wf w0 w.
Proof.
  cbn zeta. unfold logger. rewrite bind_final.
  destruct (logger_start env fuel port baud p wf w0)
    as [[ser s1] w1 | e w1 | w1] eqn:H1.
  - pose proof (logger_start_inv _ _ _ _ _ _ _ _ _ _ H1) as (HI1 & _).
    apply logger_start_ret in H1. cbn zeta in H1.
    destruct H1 as (_ & _ & _ & _ & Hf1 & _).
    assert (HU1 : untouched_but wf w0 w1)
      by exact (untouched_but_insert _ _ _ _ _ (untouched_but_refl _ _) Hf1).
    rewrite bind_final.
    pose proof (logger_loop_any env fuel ser p wf w0 s1 w1 HI1 HU1) as HL.
    destruct (logger_loop env fuel ser p wf s1 w1) as [s2 w2 | e w2 | w2];
      [| exact HL | exact HL].
    destruct HL as [HI2 HU2].
    destruct (logger_finish env p wf s2 w2) as [[] w3 | e w3 | w3] eqn:H3;
      simpl.
    + destruct HI2 as (log & Hdic & _ & _ & Hout & _).
      apply (logger_finish_ret _ _ _ _ _ _ _ Hdic) in H3. cbn zeta in H3.
      destruct H3 as (_ & _ & Hf & _ & Ho & _).
      split; [| exact (untouched_but_insert _ _ _ _ _ HU2 Hf)].
      exists (length log). rewrite Ho. split; [exact Hout |].
      right. eexists. rewrite Hf, lookup_insert_eq.
      split; [reflexivity |]. rewrite length_app. simpl. lia.
    + apply logger_finish_raise_world in H3 as (Hf & Ho).
      split; [| exact (untouched_but_files _ _ _ _ HU2 Hf)].
      destruct (Inv_reached _ _ _ _ HI2) as (n & Hn & Hc).
      exists n. rewrite Ho, Hf. auto.
    + exfalso. exact (logger_finish_returns _ _ _ _ _ _ H3).
  - simpl. apply logger_start_raise_world in H1 as (Hf & Ho).
    split; [| exact (untouched_but_files _ _ _ _ (untouched_but_refl _ _) Hf)].
    destruct Ho as [Ho | Ho].
    + exists 0%nat. rewrite Ho, Hf, app_nil_r. auto.
    + exists 1%nat. rewrite Ho, Hf. auto.
  - simpl. apply logger_start_out_world in H1 as (Hf & Ho & _).
    split; [| exact (untouched_but_files _ _ _ _ (untouched_but_refl _ _) Hf)].
    exists 0%nat. rewrite Ho, Hf, app_nil_r. auto.
Qed.

(** X4.  However a run of [logger] ends, no file but the log file has
    been written or removed: every other path holds what it held. *)
Theorem logger_touches_one_file env fuel port baud p wf w0 path :
  path <> wf ->
  files (final_world (logger env fuel port baud p wf w0)) !! path
  = files w0 !! path.
Proof.
  intros Hne.
  exact (proj2 (logger_any env fuel port baud p wf w0) path Hne).
Qed.

Lemma logger_touches_one_file_witness :
  files (final_world run_fail5) !! "other.csv" = files world0 !! "other.csv".
Proof.
  apply (logger_touches_one_file env_fail5 30 "COM3" 9600 1000000 "log.csv"
           world0 "other.csv").
  discriminate.
Defined.

(** X5.  However a run of [logger] ends, every byte it has sent is the
    command byte, and the log file either is as it was, with at most one
    byte sent, or holds a table whose number of rows is within one of the
    number of bytes sent. *)
Theorem logger_file_follows_device env fuel port baud p wf w0 :
  reached w0 wf (final_world (logger env fuel port baud p wf w0)).
Proof. exact (proj1 (logger_any env fuel port baud p wf w0)). Qed.

Lemma timedelta_raise us w e w' :
  timedelta us w = Raise e w' ->
  e = OverflowError /\ w' = w /\
  (us / US_PER_DAY < -999999999 \/ 999999999 < us / US_PER_DAY).
Proof.
  unfold timedelta. intros H.
  destruct (_ && _) eqn:Hb; [discriminate |].
  injection H as <- <-. split; [reflexivity | split; [reflexivity |]].
  apply andb_false_iff in Hb as [Hb | Hb];
    [apply Z.leb_gt in Hb | apply Z.leb_gt in Hb]; lia.
Qed.

Lemma datetime_add_raise d td w e w' :
  datetime_add d td w = Raise e w' ->
  e = OverflowError /\ w' = w /\ dt_validb (mk_datetime (dt_us d + td)) = false.
Proof.
  unfold datetime_add. intros H.
  destruct (_ && _) eqn:Hb; [discriminate |].
  injection H as <- <-. split; [reflexivity | split; [reflexivity |]].
  unfold dt_validb, ordinal, MAX_US, MAXORDINAL, US_PER_DAY, US_PER_SECOND
    in *. simpl in *.
  apply andb_false_iff in Hb. apply andb_false_iff.
  destruct Hb as [Hb | Hb]; [left; apply Z.ltb_ge in Hb; apply Z.leb_gt
                            | right; apply Z.leb_gt in Hb; apply Z.ltb_ge];
    Z.div_mod_to_equations; lia.
Qed.



(** ** Further properties: the operator's gate *)

Lemma gate_lines env fuel m cmd w cmd' w' :
  lines_read w = S m -> cmd = stdin env m ->
  while fuel (fun cmd => negb (String.eqb cmd ""))
    (fun _ => print prompt;; input env) cmd w = Ret cmd' w' ->
  exists n,
    (n <= fuel)%nat /\
    stdin env (m + n) = "" /\
    (forall k, (k < n)%nat -> stdin env (m + k) <> "") /\
    lines_read w' = S (m + n).
Proof.
  revert m cmd w. induction fuel as [| fuel IH]; intros m cmd w Hl Hc H;
    simpl in H; destruct (negb (String.eqb cmd "")) eqn:Hcmd;
    try discriminate.
  - injection H as <- <-. apply negb_false_iff, String.eqb_eq in Hcmd.
    exists 0%nat. rewrite Nat.add_0_r. repeat split; auto; try lia.
    congruence.
  - unfold mbind, M_bind, print, emit, input in H. cbn iota in H.
    norm_world_in H. rewrite Hl in H.
    apply (IH (S m)) in H as (n & Hn & He & Hne & Hlr);
      [| reflexivity | reflexivity].
    exists (S n). replace (m + S n)%nat with (S m + n)%nat by lia.
    repeat split; auto; try lia.
    intros k Hk. destruct k as [| k].
    + rewrite Nat.add_0_r. rewrite <- Hc.
      apply negb_true_iff, String.eqb_neq in Hcmd. exact Hcmd.
    + replace (m + S k)%nat with (S m + k)%nat by lia. apply Hne. lia.
  - injection H as <- <-. apply negb_false_iff, String.eqb_eq in Hcmd.
    exists 0%nat. rewrite Nat.add_0_r. repeat split; auto; try lia.
    congruence.
Qed.

Lemma gate_out env fuel m cmd w :
  lines_read w = S m -> cmd = stdin env m ->
  (forall k, (k <= fuel)%nat -> stdin env (m + k) <> "") ->
  exists w',
    while fuel (fun cmd => negb (String.eqb cmd ""))
      (fun _ => print prompt;; input env) cmd w = OutOfFuel w' /\
    lines_read w' = S (m + fuel).
Proof.
  revert m cmd w. induction fuel as [| fuel IH]; intros m cmd w Hl Hc Hne;
    simpl.
  - pose proof (Hne 0%nat ltac:(lia)) as H0. rewrite Nat.add_0_r, <- Hc in H0.
    apply String.eqb_neq in H0. rewrite H0. simpl.
    exists w. rewrite Nat.add_0_r. auto.
  - pose proof (Hne 0%nat ltac:(lia)) as H0. rewrite Nat.add_0_r, <- Hc in H0.
    apply String.eqb_neq in H0. rewrite H0. simpl.
    unfold mbind, M_bind, print, emit, input. cbn iota. norm_world.
    rewrite Hl.
    edestruct (IH (S m)) as (w' & Hw & Hlr);
      [| | | exists w'; split; [exact Hw |]].
    + reflexivity.
    + reflexivity.
    + intros k Hk. replace (S m + k)%nat with (m + S k)%nat by lia.
      apply Hne. lia.
    + rewrite Hlr. lia.
Qed.

(** X7.  [logger] makes its first state change at the first empty line
    the operator enters and not before: when its start comes back, it has
    read the lines up to the first empty one, all lines before that one
    being non-empty, and no more. *)
Theorem logger_starts_at_first_empty_line env fuel port baud p wf w0 ser s1 w1 :
  logger_start env fuel port baud p wf w0 = Ret (ser, s1) w1 ->
  exists n,
    stdin env (lines_read w0 + n) = "" /\
    (forall k, (k < n)%nat -> stdin env (lines_read w0 + k) <> "") /\
    lines_read w1 = S (lines_read w0 + n).
Proof.
  unfold logger_start. intros H.
  step H. step H. step H. norm_world_in H.
  apply bind_ret in H as (cmd' & wg & Hg & H).
  match type of Hg with
  | while _ _ _ (stdin env ?m) _ = _ =>
      apply (gate_lines _ _ m) in Hg
        as (n & _ & He & Hne & Hl); [| reflexivity | reflexivity]
  end.
  step H.
  apply bind_ret in H as ([[t dc] l] & w2 & Hc & H).
  pose proof (change_system_state_any env
                {| ser_port := port; ser_baud := baud |} 0
                [("Timestamp", []); ("System State", [])] p wf
                {| clock_reads := clock_reads wg; lines_read := lines_read wg;
                   key_polls := key_polls wg; ser_calls := ser_calls wg;
                   disk_calls := disk_calls wg; ser_out := ser_out wg;
                   files := files wg; console := console wg;
                   slept := slept wg + 1000000 |}) as Ha.
  rewrite Hc in Ha. cbn zeta in Ha. simpl in Ha.
  destruct Ha as (_ & _ & _ & Hlr & _).
  prim H. simplify_eq. exists n. rewrite Hlr. auto.
Qed.

Lemma logger_starts_at_first_empty_line_witness :
  exists ser s1 w1,
    logger_start env_chatty 30 "COM3" 9600 1000000 "log.csv" world0
    = Ret (ser, s1) w1 /\
    exists n,
      stdin env_chatty (lines_read world0 + n) = "" /\
      (forall k, (k < n)%nat ->
         stdin env_chatty (lines_read world0 + k) <> "") /\
      lines_read w1 = S (lines_read world0 + n).
Proof.
  pose (o := logger_start env_chatty 30 "COM3" 9600 1000000 "log.csv" world0).
  exists (mk_serial "COM3" 9600),
    (match o with Ret (_, s1) _ => s1 | _ => mk_state 0 [] 0 0 end),
    (final_world o).
  assert (Hrun : logger_start env_chatty 30 "COM3" 9600 1000000 "log.csv" world0
                 = Ret (mk_serial "COM3" 9600,
                        match o with Ret (_, s1) _ => s1 | _ => mk_state 0 [] 0 0 end)
                       (final_world o))
    by (vm_compute; reflexivity).
  split; [exact Hrun |].
  exact (logger_starts_at_first_empty_line env_chatty 30 "COM3" 9600 1000000
           "log.csv" world0 (mk_serial "COM3" 9600)
           (match o with Ret (_, s1) _ => s1 | _ => mk_state 0 [] 0 0 end)
           (final_world o) Hrun).
Defined.

(** X8.  As long as the operator enters lines that are not empty,
    [logger] stays at its gate: followed for any number of lines, it has
    read them all, sent nothing, written no file and not read the
    clock. *)
Theorem logger_waits_for_enter env fuel port baud p wf w0 :
  port_opens env = true ->
  (forall k, (k <= fuel)%nat -> stdin env (lines_read w0 + k) <> "") ->
  exists w,
    logger env fuel port baud p wf w0 = OutOfFuel w /\
    lines_read w = S (lines_read w0 + fuel) /\
    ser_out w = ser_out w0 /\ files w = files w0 /\
    clock_reads w = clock_reads w0.
Proof.
  intros Hp Hne.
  assert (Hs : exists w,
             logger_start env fuel port baud p wf w0 = OutOfFuel w /\
             lines_read w = S (lines_read w0 + fuel)).
  { unfold logger_start, mbind, M_bind, serial_Serial. rewrite Hp.
    unfold print, emit, input. cbn iota. norm_world.
    edestruct (gate_out env fuel (lines_read w0)) as (w' & Hw & Hl);
      [| | exact Hne | rewrite Hw; exists w'; split; [reflexivity | exact Hl]];
      reflexivity. }
  destruct Hs as (w & Hw & Hl). exists w.
  split; [unfold logger, mbind, M_bind; rewrite Hw; reflexivity |].
  apply logger_start_out_world in Hw as (Hf & Ho & Hc). auto.
Qed.

Lemma logger_waits_for_enter_witness :
  exists w,
    logger env_chatty 2 "COM3" 9600 1000000 "log.csv" world0 = OutOfFuel w /\
    lines_read w = S (lines_read world0 + 2) /\
    ser_out w = ser_out world0 /\ files w = files world0 /\
    clock_reads w = clock_reads world0.
Proof.
  apply (logger_waits_for_enter env_chatty 2 "COM3" 9600 1000000 "log.csv"
           world0).
  - reflexivity.
  - intros k Hk.
    assert (Hc : (k = 0 \/ k = 1 \/ k = 2)%nat) by lia.
    destruct Hc as [-> | [-> | ->]]; discriminate.
Defined.

(** ** Further properties: the loop state and the device *)

Lemma flip_changes t : flip t <> t.
Proof.
  unfold flip. destruct (t =? 0) eqn:Ht; simpl.
  - apply Z.eqb_eq in Ht. lia.
  - apply Z.eqb_neq in Ht. lia.
Qed.

Lemma snoc_changes {A} (l : list A) x : l ++ [x] <> l.
Proof.
  intros H. apply (f_equal (@length A)) in H.
  rewrite length_app in H. simpl in H. lia.
Qed.

(** X9.  The toggle is the parity of the bytes sent: at the start of
    every iteration of the loop, and when the loop ends, [toggle] is 1
    exactly when an odd number of command bytes has been sent since the
    start of the run, so that it tells the state of a device that was off
    at the start. *)
Theorem toggle_tracks_device env fuel port baud p wf w0 :
  Forall (fun sw =>
            toggle sw.1
            = Z.of_nat (length (ser_out sw.2) - length (ser_out w0)) mod 2)
    (run_iterations env fuel port baud p wf w0
     ++ match loop_exit env fuel port baud p wf w0 with
        | Some sw => [sw]
        | None => []
        end).
Proof.
  assert (HI : forall s w,
             Inv w0 wf s w ->
             toggle s
             = Z.of_nat (length (ser_out w) - length (ser_out w0)) mod 2).
  { intros s w (log & _ & _ & _ & Ho & _ & _ & _ & Ht & _).
    rewrite Ho, length_app, length_replicate, Ht. f_equal. lia. }
  unfold run_iterations, loop_exit.
  destruct (logger_start env fuel port baud p wf w0)
    as [[ser s1] w1 | |] eqn:H1; [| constructor | constructor].
  pose proof (logger_start_inv _ _ _ _ _ _ _ _ _ _ H1) as (HI1 & _).
  apply Forall_app. split.
  - apply Forall_forall. intros sw Hin. apply list_elem_of_In in Hin.
    apply (iterations_inv _ _ (Inv w0 wf)) in Hin as [Hi _];
      [| intros; eapply loop_body_keeps; eauto | exact HI1].
    apply HI, Hi.
  - destruct (logger_loop env fuel ser p wf s1 w1) as [s2 w2 | |] eqn:H2;
      [| constructor | constructor].
    constructor; [| constructor]. simpl. apply HI.
    unfold logger_loop in H2.
    apply (while_ret _ _ (Inv w0 wf)) in H2 as [Hi _];
      [exact Hi | intros; eapply loop_body_keeps; eauto | exact HI1].
Qed.

(** The run of [env_keys] has twenty-one iterations. *)
Example run_keys_iterations :
  length (run_iterations env_keys 30 "COM3" 9600 1000000 "log.csv" world0)
  = 21%nat.
Proof. vm_compute. reflexivity. Qed.

(** X10.  A pass through the loop body that comes back has changed the
    loop state exactly when it has sent a byte. *)
Theorem loop_state_changes_with_command env ser p wf s w log s' w' :
  dic s = table_of log ->
  loop_body env ser p wf s w = Ret s' w' ->
  (s' = s <-> ser_out w' = ser_out w).
Proof.
  intros Hdic H.
  apply (loop_body_ret _ _ _ _ _ _ _ _ _ Hdic) in H as (_ & _ & _ & H).
  destruct (branch env p (s, w)).
  - destruct H as [(_ & Ht & _ & _ & _ & _ & Ho & _) _].
    split; intros E.
    + subst s'. exfalso. exact (flip_changes _ (eq_sym Ht)).
    + rewrite Ho in E. exfalso. exact (snoc_changes _ _ E).
  - destruct H as [(-> & Ho & _) _]. tauto.
  - destruct H as [(_ & Ht & _ & _ & _ & _ & Ho & _) _].
    split; intros E.
    + subst s'. exfalso. exact (flip_changes _ (eq_sym Ht)).
    + rewrite Ho in E. exfalso. exact (snoc_changes _ _ E).
  - destruct H as [(-> & Ho & _) _]. tauto.
Qed.

Lemma loop_state_changes_with_command_witness :
  exists s' w',
    loop_body env_plain (mk_serial "COM3" 9600) 1000000 "log.csv" s_due world0
    = Ret s' w' /\
    (s' = s_due <-> ser_out w' = ser_out world0).
Proof.
  pose (o := loop_body env_plain (mk_serial "COM3" 9600) 1000000 "log.csv"
               s_due world0).
  exists (match o with Ret s' _ => s' | _ => s_due end), (final_world o).
  assert (Hrun : loop_body env_plain (mk_serial "COM3" 9600) 1000000 "log.csv"
                   s_due world0
                 = Ret (match o with Ret s' _ => s' | _ => s_due end)
                       (final_world o))
    by (vm_compute; reflexivity).
  split; [exact Hrun |].
  exact (loop_state_changes_with_command env_plain (mk_serial "COM3" 9600)
           1000000 "log.csv" s_due world0 [("2020-11-04 12:25:05", "On")]
           (match o with Ret s' _ => s' | _ => s_due end) (final_world o)
           eq_refl Hrun).
Defined.

(** X11.  Under a clock that does not go back, an automatic state change
    is dated at least a command cycle period after the state change
    before it, manual or automatic: the schedule is counted anew from
    each state change. *)
Theorem automatic_change_a_period_later env ser p wf s w log s' w' :
  dic s = table_of log ->
  keyboard env (key_polls w) = None ->
  clock env (clock_reads w) <= clock env (S (clock_reads w)) ->
  loop_body env ser p wf s w = Ret s' w' ->
  ser_out w' <> ser_out w ->
  p * 60 <= last_state_change_time s' - last_state_change_time s.
Proof.
  intros Hdic Hkey Hmono H Hne.
  apply (loop_body_ret _ _ _ _ _ _ _ _ _ Hdic) in H as (_ & _ & _ & H).
  unfold branch in H. simpl in H. rewrite Hkey in H.
  destruct (p * 60 <=? _) eqn:He.
  - apply Z.leb_le in He.
    destruct H as [(_ & _ & _ & Hl & _) _]. rewrite Hl. lia.
  - destruct H as [(_ & Ho & _) _]. contradiction.
Qed.

Lemma automatic_change_a_period_later_witness :
  exists s' w',
    loop_body env_plain (mk_serial "COM3" 9600) 1000000 "log.csv" s_due world0
    = Ret s' w' /\
    1000000 * 60 <= last_state_change_time s' - last_state_change_time s_due.
Proof.
  pose (o := loop_body env_plain (mk_serial "COM3" 9600) 1000000 "log.csv"
               s_due world0).
  exists (match o with Ret s' _ => s' | _ => s_due end), (final_world o).
  assert (Hrun : loop_body env_plain (mk_serial "COM3" 9600) 1000000 "log.csv"
                   s_due world0
                 = Ret (match o with Ret s' _ => s' | _ => s_due end)
                       (final_world o))
    by (vm_compute; reflexivity).
  split; [exact Hrun |].
  apply (automatic_change_a_period_later env_plain (mk_serial "COM3" 9600)
           1000000 "log.csv" s_due world0 [("2020-11-04 12:25:05", "On")]
           (match o with Ret s' _ => s' | _ => s_due end) (final_world o)
           eq_refl eq_refl).
  - vm_compute. discriminate.
  - exact Hrun.
  - vm_compute. discriminate.
Defined.

(** ** Further properties: the order of the rows *)

Lemma clock_monotone env i j :
  (forall k, clock env k <= clock env (S k)) ->
  (i <= j)%nat -> clock env i <= clock env j.
Proof.
  intros Hm Hij. induction Hij as [| j Hij IH]; [lia |].
  specialize (Hm j). lia.
Qed.

Lemma chronicle_snoc env s2 w w2 log ks k t st :
  log.*1 = map (fun k => get_timestamp (now_at env k)) ks ->
  StronglySorted lt ks ->
  Forall (fun k => (k < clock_reads w)%nat) ks ->
  (clock_reads w <= k)%nat -> (k < clock_reads w2)%nat ->
  t = get_timestamp (now_at env k) ->
  dic s2 = table_of (log ++ [(t, st)]) ->
  chronicle env s2 w2.
Proof.
  intros Hts Hs Hb Hk Hk2 -> Hd2.
  exists (log ++ [(get_timestamp (now_at env k), st)]), (ks ++ [k]).
  split; [exact Hd2 |].
  split; [rewrite fmap_app, map_app, Hts; reflexivity |].
  split.
  - apply StronglySorted_app_2; [| exact Hs | repeat constructor].
    intros x1 x2 H1 H2. apply list_elem_of_singleton in H2 as ->.
    rewrite Forall_forall in Hb. specialize (Hb _ H1). lia.
  - apply Forall_app. split.
    + eapply Forall_impl; [exact Hb |]. simpl. intros; lia.
    + constructor; [lia | constructor].
Qed.

Lemma loop_body_chronicle env ser p wf s w s2 w2 :
  chronicle env s w ->
  loop_body env ser p wf s w = Ret s2 w2 ->
  chronicle env s2 w2.
Proof.
  intros (log & ks & Hdic & Hts & Hs & Hb) H.
  apply (loop_body_ret _ _ _ _ _ _ _ _ _ Hdic) in H as (_ & _ & _ & H).
  destruct (branch env p (s, w)).
  - destruct H as [H _]. unfold fired in H. cbn zeta in H.
    destruct H as (_ & _ & Hd & _ & _ & _ & _ & _ & Hc & _).
    eapply (chronicle_snoc env s2 w w2 log ks (S (clock_reads w)));
      [exact Hts | exact Hs | exact Hb | lia | lia | reflexivity | exact Hd].
  - destruct H as [(-> & _) Hc]. exists log, ks. rewrite Hc. auto.
  - destruct H as [H _]. unfold fired in H. cbn zeta in H.
    destruct H as (_ & _ & Hd & _ & _ & _ & _ & _ & Hc & _).
    eapply (chronicle_snoc env s2 w w2 log ks (S (S (clock_reads w))));
      [exact Hts | exact Hs | exact Hb | lia | lia | reflexivity | exact Hd].
  - destruct H as [(-> & _) Hc]. exists log, ks.
    split; [exact Hdic |]. split; [exact Hts |]. split; [exact Hs |].
    rewrite Hc. eapply Forall_impl; [exact Hb |]. simpl. intros; lia.
Qed.

Lemma records_dated (log : list (string * string)) (ds : list datetime) :
  log.*1 = map get_timestamp ds ->
  records log = zip_with (fun d st => [get_timestamp d; st]) ds log.*2.
Proof.
  revert ds. induction log as [| [t st] log IH]; intros [| d ds] H;
    simpl in *; try discriminate; [reflexivity |].
  injection H as -> H. f_equal. exact (IH _ H).
Qed.

Lemma sorted_readings env ks :
  (forall k, clock env k <= clock env (S k)) ->
  StronglySorted lt ks ->
  StronglySorted (fun a b => dt_us a <= dt_us b) (map (now_at env) ks).
Proof.
  intros Hm Hs. induction Hs as [| k ks Hs IH Hk]; simpl; constructor;
    [exact IH |].
  pose proof (proj1 (Forall_forall _ _) Hk) as Hk'. clear Hk.
  apply Forall_forall. intros d Hd.
  apply list_elem_of_In, in_map_iff in Hd as (j & <- & Hj).
  apply list_elem_of_In in Hj. specialize (Hk' _ Hj).
  pose proof (clock_monotone env k j Hm ltac:(lia)). simpl. lia.
Qed.



(** ** Further properties: the run comes to its end *)

Lemma dt_validb_true d : dt_valid d -> dt_validb d = true.
Proof.
  unfold dt_valid, dt_validb. intros [H1 H2].
  apply andb_true_iff. split; [apply Z.leb_le | apply Z.ltb_lt]; assumption.
Qed.

Lemma while_step {St} (cond : St -> bool) (body : St -> M St) fuel s w s1 w1 :
  cond s = true -> body s w = Ret s1 w1 ->
  while (S fuel) cond body s w = while fuel cond body s1 w1.
Proof. intros Hc Hb. simpl. rewrite Hc, Hb. reflexivity. Qed.

Lemma while_done {St} (cond : St -> bool) (body : St -> M St) fuel s w :
  cond s = false -> while fuel cond body s w = Ret s w.
Proof. intros Hc. destruct fuel; simpl; rewrite Hc; reflexivity. Qed.

Lemma gate_runs env n fuel m cmd w :
  lines_read w = S m -> cmd = stdin env m ->
  (n <= fuel)%nat -> stdin env (m + n) = "" ->
  exists cmd' w',
    while fuel (fun cmd => negb (String.eqb cmd ""))
      (fun _ => print prompt;; input env) cmd w = Ret cmd' w'.
Proof.
  revert fuel m cmd w. induction n as [| n IH];
    intros fuel m cmd w Hl Hc Hn He.
  - rewrite Nat.add_0_r, <- Hc in He. exists cmd, w.
    apply while_done. rewrite He. reflexivity.
  - destruct (negb (String.eqb cmd "")) eqn:Hcmd;
      [| exists cmd, w; apply while_done; exact Hcmd].
    destruct fuel as [| fuel]; [lia |].
    simpl. rewrite Hcmd.
    unfold mbind, M_bind, print, emit, input. cbn iota. norm_world.
    rewrite Hl. apply (IH fuel (S m)); [reflexivity | reflexivity | lia |].
    replace (S m + n)%nat with (m + S n)%nat by lia. exact He.
Qed.

Lemma logger_start_runs env n fuel port baud p wf w :
  port_opens env = true ->
  (n <= fuel)%nat -> stdin env (lines_read w + n) = "" ->
  ser_accepts env (ser_calls w) = true ->
  disk_accepts env (disk_calls w) = true ->
  dt_valid (now_at env (S (clock_reads w))) ->
  dt_valid (mk_datetime (dt_us (now_at env (S (clock_reads w))) + p * 60)) ->
  exists ser s1 w1,
    logger_start env fuel port baud p wf w = Ret (ser, s1) w1.
Proof.
  intros Hp Hn He Hs Hd Hv Hv'.
  pose (wa := mk_world (clock_reads w) (S (lines_read w)) (key_polls w)
                (ser_calls w) (disk_calls w) (ser_out w) (files w)
                (console w ++ [PrintStr prompt]) (slept w)).
  destruct (gate_runs env n fuel (lines_read w) (stdin env (lines_read w)) wa
              eq_refl eq_refl Hn He) as (cmd' & wg & Hg).
  pose proof (gate_ret _ _ _ _ _ _ Hg) as (Hcr & _ & Hsc & Hdc & _).
  simpl in Hcr, Hsc, Hdc.
  pose (ws := mk_world (clock_reads wg) (lines_read wg) (key_polls wg)
                (ser_calls wg) (disk_calls wg) (ser_out wg) (files wg)
                (console wg) (slept wg + 1000000)).
  assert (Hs' : ser_accepts env (ser_calls ws) = true)
    by (simpl; rewrite Hsc; exact Hs).
  assert (Hd' : disk_accepts env (disk_calls ws) = true)
    by (simpl; rewrite Hdc; exact Hd).
  assert (Hw : dt_validb (now_at env (S (clock_reads ws))) = true)
    by (simpl; rewrite Hcr; exact (dt_validb_true _ Hv)).
  assert (Hw' : dt_validb (mk_datetime
                  (dt_us (now_at env (S (clock_reads ws))) + p * 60)) = true)
    by (simpl clock_reads; rewrite Hcr; exact (dt_validb_true _ Hv')).
  destruct (change_system_state_runs env (mk_serial port baud) 0 [] p wf ws
              Hs' Hd' Hw Hw') as ([[t d] l] & w2 & Hc).
  exists (mk_serial port baud), (mk_state t d l 1), w2.
  unfold logger_start.
  eapply bind_ret_intro; [unfold serial_Serial; rewrite Hp; reflexivity |].
  eapply bind_ret_intro; [reflexivity |].
  eapply bind_ret_intro; [reflexivity |].
  eapply bind_ret_intro; [exact Hg |].
  eapply bind_ret_intro; [reflexivity |].
  eapply bind_ret_intro; [exact Hc |].
  reflexivity.
Qed.

Lemma loop_body_runs env ser p wf s w log :
  dic s = table_of log ->
  keyboard env (key_polls w) = None ->
  ser_accepts env (ser_calls w) = true ->
  disk_accepts env (disk_calls w) = true ->
  dt_valid (now_at env (S (S (clock_reads w)))) ->
  dt_valid (mk_datetime
              (dt_us (now_at env (S (S (clock_reads w)))) + p * 60)) ->
  exists s' w', loop_body env ser p wf s w = Ret s' w'.
Proof.
  intros Hdic Hk Hs Hd Hv Hv'.
  pose (w2 := mk_world (S (clock_reads w)) (lines_read w) (S (key_polls w))
                (ser_calls w) (disk_calls w) (ser_out w) (files w)
                (console w) (slept w + 10000)).
  destruct (change_system_state_runs env ser (toggle s) log p wf w2
              Hs Hd (dt_validb_true _ Hv) (dt_validb_true _ Hv'))
    as ([[t d] l] & w3 & Hc).
  unfold loop_body. rewrite Hdic.
  destruct (p * 60 <=? clock env (clock_reads w) - last_state_change_time s)
    eqn:Ht.
  - exists (mk_state t d l (cycle_n s + 1)), w3.
    eapply bind_ret_intro; [reflexivity |].
    eapply bind_ret_intro;
      [unfold kbhit; norm_world; rewrite Hk; reflexivity |].
    cbn iota.
    eapply bind_ret_intro; [reflexivity |].
    norm_world. rewrite Ht.
    eapply bind_ret_intro; [exact Hc |].
    reflexivity.
  - exists s, w2.
    eapply bind_ret_intro; [reflexivity |].
    eapply bind_ret_intro;
      [unfold kbhit; norm_world; rewrite Hk; reflexivity |].
    cbn iota.
    eapply bind_ret_intro; [reflexivity |].
    norm_world. rewrite Ht.
    reflexivity.
Qed.

Lemma logger_finish_runs env p wf s w log :
  dic s = table_of log ->
  disk_accepts env (disk_calls w) = true ->
  dt_valid (now_at env (clock_reads w)) ->
  dt_valid (mk_datetime (dt_us (now_at env (clock_reads w)) + p * 60)) ->
  exists w', logger_finish env p wf s w = Ret tt w'.
Proof.
  intros Hdic Hd Hv Hv'.
  assert (Htd : (-999999999 <=? (p * 60 / 2) / US_PER_DAY)
                && ((p * 60 / 2) / US_PER_DAY <=? 999999999) = true).
  { unfold dt_valid, now_at, MAX_US, MAXORDINAL, US_PER_DAY, US_PER_SECOND
      in *. simpl in *.
    apply andb_true_iff. split; apply Z.leb_le;
      Z.div_mod_to_equations; lia. }
  assert (Hadd : (0 <? ordinal (mk_datetime
                     (dt_us (now_at env (clock_reads w)) + p * 60 / 2)))
                 && (ordinal (mk_datetime
                       (dt_us (now_at env (clock_reads w)) + p * 60 / 2))
                     <=? MAXORDINAL) = true).
  { unfold dt_valid, ordinal, MAX_US, MAXORDINAL, US_PER_DAY, US_PER_SECOND
      in *. simpl in *.
    apply andb_true_iff. split; [apply Z.ltb_lt | apply Z.leb_le];
      Z.div_mod_to_equations; lia. }
  apply dt_validb_true in Hv.
  unfold logger_finish. rewrite Hdic. eexists.
  eapply bind_ret_intro;
    [unfold datetime_now; norm_world;
     fold (now_at env (clock_reads w)); rewrite Hv; reflexivity |].
  eapply bind_ret_intro; [unfold timedelta; rewrite Htd; reflexivity |].
  eapply bind_ret_intro; [unfold datetime_add; rewrite Hadd; reflexivity |].
  eapply bind_ret_intro; [apply dict_iadd_timestamp |].
  eapply bind_ret_intro; [apply dict_iadd_state |].
  rewrite table_of_snoc.
  eapply bind_ret_intro; [apply pd_DataFrame_table_of |].
  unfold to_csv. norm_world. rewrite Hd. reflexivity.
Qed.

Section Completes.
Variables (env : Env) (N : nat) (ser : Serial) (p : Z) (wf : string) (K : nat).
Hypothesis N_pos : (0 < N)%nat.
Hypothesis no_key : forall k, keyboard env k = None.
Hypothesis ser_ok : forall k, ser_accepts env k = true.
Hypothesis disk_ok : forall k, disk_accepts env k = true.
Hypothesis clock_moves :
  forall k, p * 60 <= clock env (k + N + 1) - clock env k.
Hypothesis clock_ok : usable_clock env p K.

Lemma logger_loop_runs fuel r s w log k j :
  dic s = table_of log ->
  cycle_n s = 20 - Z.of_nat r ->
  last_state_change_time s = clock env k ->
  clock_reads w = (k + 2 + j)%nat ->
  (r = 0 -> j = 0)%nat -> (j < N)%nat ->
  (r * N <= fuel + j)%nat ->
  (clock_reads w + r * (N + 2) <= K + j)%nat ->
  exists s' w' log',
    logger_loop env fuel ser p wf s w = Ret s' w' /\
    dic s' = table_of log' /\ (clock_reads w' <= K)%nat.
Proof.
  revert r s w log k j.
  induction fuel as [| fuel IH]; intros r s w log k j Hdic Hcy Hl Hcr Hj0 Hj Hf Hb;
    unfold logger_loop.
  - destruct r as [| r].
    + exists s, w, log. split; [| split; [exact Hdic | lia]].
      apply while_done. rewrite Hcy. reflexivity.
    + exfalso. rewrite Nat.mul_succ_l in Hf. lia.
  - destruct r as [| r].
    + exists s, w, log. split; [| split; [exact Hdic | lia]].
      apply while_done. rewrite Hcy. reflexivity.
    + rewrite Nat.mul_succ_l in Hf, Hb.
      assert (Hc : (cycle_n s <? 20) = true) by (apply Z.ltb_lt; lia).
      destruct (clock_ok (S (S (clock_reads w))) ltac:(lia)) as [Hv Hv'].
      destruct (loop_body_runs env ser p wf s w log Hdic (no_key _)
                  (ser_ok _) (disk_ok _) Hv Hv') as (s1 & w1 & Hbody).
      rewrite (while_step _ _ fuel s w s1 w1 Hc Hbody).
      pose proof (loop_body_ret env ser p wf s w log s1 w1 Hdic Hbody)
        as (_ & _ & _ & Hbr).
      unfold branch in Hbr. cbn [fst snd] in Hbr. rewrite no_key in Hbr.
      destruct (p * 60 <=? clock env (clock_reads w)
                           - last_state_change_time s) eqn:Ht.
      * destruct Hbr as [Hfd Hcy1]. unfold fired in Hfd. cbn zeta in Hfd.
        destruct Hfd as (_ & _ & Hd1 & Hl1 & _ & _ & _ & _ & Hcr1 & _).
        apply (IH r s1 w1 _ (S (clock_reads w)) 0%nat Hd1);
          [lia | exact Hl1 | lia | lia | lia | lia | lia].
      * destruct Hbr as [(-> & _) Hcr1].
        assert (Hlt : (S j < N)%nat).
        { apply Z.leb_gt in Ht. rewrite Hl in Ht.
          destruct (decide (S j = N)) as [Hjn |]; [| lia].
          pose proof (clock_moves k) as Hm.
          replace (k + N + 1)%nat with (clock_reads w) in Hm by lia. lia. }
        apply (IH (S r) s w1 log k (S j) Hdic Hcy Hl);
          [lia | lia | lia | rewrite Nat.mul_succ_l; lia
          | rewrite Nat.mul_succ_l; lia].
Qed.
End Completes.



(** ** Further properties: [main] from end to end, and the timestamp *)

(** X14.  When [main] returns, the file it named (the directory, the
    date string and _log.csv, or with the operator's suffix) holds a table
    of at least 21 rows, one command byte has been sent for each row but
    the last, and no other file has been touched. *)
Theorem main_logs_to_named_file env float fuel args w0 w :
  main env float fuel args w0 = Ret tt w ->
  exists date w1 log,
    get_date_string env w0 = Ret date w1 /\
    let wf := args_write_dir args +:+ date
              +:+ (if String.eqb (stdin env (lines_read w0)) "y"
                   then "_log.csv"
                   else "_log_" +:+ stdin env (S (lines_read w0))
                        +:+ ".csv") in
    files w !! wf = Some (csv_of log) /\
    (21 <= length log)%nat /\
    ser_out w = ser_out w0 ++ replicate (length log - 1) x30 /\
    untouched_but wf w0 w.
Proof.
  intros H. unfold main in H.
  apply bind_ret in H as ([[[port baud] p] wf] & w' & Hs & H).
  cbn beta iota in H.
  pose proof (main_setup_ret _ _ _ _ _ _ Hs) as Hm. cbn zeta in Hm.
  destruct Hm as (x & date & w1 & _ & Hd & Hr & _ & Hout & Hfi).
  injection Hr as -> -> -> ->.
  match type of H with
  | logger _ _ _ _ _ ?f _ = _ => set (wf := f) in *
  end.
  pose proof (proj2 (logger_any env fuel (args_COM_Port args)
                       (args_baud args) (x / 2) wf w')) as HU.
  rewrite H in HU. simpl in HU.
  apply logger_run in H
    as (ser & s1 & w1' & s2 & w2 & log & ts & H1 & H2 & _ & _ & Hc1 & HI2
        & Hc2 & Hdic & _ & _ & Hf & Ho & _).
  pose proof (logger_start_inv _ _ _ _ _ _ _ _ _ _ H1) as (_ & _ & ts1 & Hd1).
  pose proof (loop_counts _ _ _ _ _ _ _ _ _ _ Hd1 H2) as Hn. cbn zeta in Hn.
  destruct Hn as (log' & Hdic' & Hcy & Hlen).
  rewrite Hdic in Hdic'. apply table_of_inj in Hdic' as <-.
  destruct HI2 as (log0 & Hdic0 & _ & _ & Hout2 & _).
  rewrite Hdic in Hdic0. apply table_of_inj in Hdic0 as <-.
  exists date, w1, (log ++ [(ts, "On")]).
  split; [exact Hd |]. cbn zeta. fold wf.
  split; [rewrite Hf; apply lookup_insert_eq |].
  rewrite length_app. simpl length.
  change (length [(ts1, "On")]) with 1%nat in Hlen.
  split; [lia |].
  split.
  - rewrite Ho, Hout2, Hout. f_equal. f_equal. lia.
  - intros path Hne. rewrite (HU path Hne), Hfi. reflexivity.
Qed.

Lemma main_logs_to_named_file_witness :
  exists date w1 log,
    get_date_string env_suffix world0 = Ret date w1 /\
    let wf := args_write_dir default_args +:+ date
              +:+ (if String.eqb (stdin env_suffix (lines_read world0)) "y"
                   then "_log.csv"
                   else "_log_" +:+ stdin env_suffix (S (lines_read world0))
                        +:+ ".csv") in
    files (final_world (main env_suffix float_two 30 default_args world0))
      !! wf = Some (csv_of log) /\
    (21 <= length log)%nat /\
    ser_out (final_world (main env_suffix float_two 30 default_args world0))
    = ser_out world0 ++ replicate (length log - 1) x30 /\
    untouched_but wf world0
      (final_world (main env_suffix float_two 30 default_args world0)).
Proof.
  assert (Hrun : main env_suffix float_two 30 default_args world0
                 = Ret tt (final_world
                             (main env_suffix float_two 30 default_args
                                world0)))
    by (vm_compute; reflexivity).
  exact (main_logs_to_named_file env_suffix float_two 30 default_args world0
           (final_world (main env_suffix float_two 30 default_args world0))
           Hrun).
Defined.

(** The run of [main] with the operator who gives the suffix run7. *)
Example main_run_suffix :
  length (persisted
            (final_world (main env_suffix float_two 30 default_args world0))
            "C:\Data\TSLog\20201104_log_run7.csv") = 21%nat /\
  length (ser_out
            (final_world (main env_suffix float_two 30 default_args world0)))
  = 20%nat.
Proof. split; vm_compute; reflexivity. Qed.

Lemma same_second_fields d d' :
  dt_us d / US_PER_SECOND = dt_us d' / US_PER_SECOND ->
  ordinal d = ordinal d' /\ second_of_day d = second_of_day d'.
Proof.
  unfold ordinal, second_of_day, US_PER_DAY, US_PER_SECOND.
  generalize (dt_us d) (dt_us d'). intros a b H.
  split; Z.div_mod_to_equations; lia.
Qed.

(** X15.  A timestamp has the resolution of one second: two instants
    within the same second have the same timestamp. *)
Theorem get_timestamp_whole_seconds d d' :
  dt_us d / 1000000 = dt_us d' / 1000000 ->
  get_timestamp d = get_timestamp d'.
Proof.
  intros H. apply same_second_fields in H as [Ho Hs].
  unfold get_timestamp. rewrite !CalendarFacts.strftime_fields.
  unfold year, month, day, hour, minute, second. rewrite Ho, Hs.
  reflexivity.
Qed.

Lemma get_timestamp_whole_seconds_witness :
  get_timestamp (mk_datetime 63740089445000000)
  = get_timestamp (mk_datetime 63740089445999999).
Proof.
  apply (get_timestamp_whole_seconds (mk_datetime 63740089445000000)
           (mk_datetime 63740089445999999)).
  reflexivity.
Defined.

(** ** Further properties: what the operator is shown *)

(** X16.  A state change that goes through clears the console, prints
    the table it has just saved in the log file, and then one message,
    which announces the next automatic change for a command cycle period
    after the instant of the new row. *)
Theorem change_system_state_console env ser tg log p wf w r w' :
  change_system_state env ser tg (table_of log) p wf w = Ret r w' ->
  let d := now_at env (S (clock_reads w)) in
  let log' := log ++ [(get_timestamp d, state_label tg)] in
  exists df msg pre post,
    console w' = console w ++ [System "cls"; PrintFrame df; PrintStr msg] /\
    df = mk_frame header (records log') /\
    files w' !! wf = Some (columns df :: data df) /\
    msg = pre +:+ get_timestamp (mk_datetime (dt_us d + p * 60)) +:+ post.
Proof.
  unfold change_system_state. intros H.
  step H. step H. step H.
  apply bind_ret in H as (? & ? & Hs & H).
  unfold table_of in Hs. rewrite dict_iadd_timestamp in Hs. simplify_eq.
  step H. step H.
  unfold state_label.
  destruct (negb (tg =? 0)).
  - apply bind_ret in H as (? & ? & Hs & H).
    rewrite dict_iadd_state, table_of_snoc in Hs. simplify_eq.
    apply bind_ret in H as (? & ? & Hs & H).
    rewrite pd_DataFrame_table_of in Hs. simplify_eq.
    step H. step H. step H. step H. prim H. simplify_eq.
    cbn zeta. norm_world.
    eexists _, _,
      (nl +:+ "System Deactivated." +:+ nl
       +:+ "System will automatically activate at "),
      (", or press 0 to activate system." +:+ nl).
    split; [rewrite <- !app_assoc; reflexivity |].
    split; [reflexivity |].
    split; [apply lookup_insert_eq | reflexivity].
  - apply bind_ret in H as (? & ? & Hs & H).
    rewrite dict_iadd_state, table_of_snoc in Hs. simplify_eq.
    apply bind_ret in H as (? & ? & Hs & H).
    rewrite pd_DataFrame_table_of in Hs. simplify_eq.
    step H. step H. step H. step H. prim H. simplify_eq.
    cbn zeta. norm_world.
    eexists _, _,
      (nl +:+ "System Activated." +:+ nl
       +:+ "System will automatically deactivate at "),
      (", or press 0 to deactivate system." +:+ nl).
    split; [rewrite <- !app_assoc; reflexivity |].
    split; [reflexivity |].
    split; [apply lookup_insert_eq | reflexivity].
Qed.

Lemma change_system_state_console_witness :
  exists r w',
    change_system_state env_plain (mk_serial "COM3" 9600) 0 (table_of [])
      1000000 "log.csv" world0 = Ret r w' /\
    exists df msg pre post,
      console w'
      = console world0 ++ [System "cls"; PrintFrame df; PrintStr msg] /\
      df = mk_frame header
             (records ([] ++ [(get_timestamp
                                 (now_at env_plain (S (clock_reads world0))),
                               state_label 0)])) /\
      files w' !! "log.csv" = Some (columns df :: data df) /\
      msg = pre +:+ get_timestamp
                      (mk_datetime
                         (dt_us (now_at env_plain (S (clock_reads world0)))
                          + 1000000 * 60)) +:+ post.
Proof.
  pose (o := change_system_state env_plain (mk_serial "COM3" 9600) 0
               (table_of []) 1000000 "log.csv" world0).
  pose (r := match o with Ret r _ => r | _ => (0, [], 0) end).
  assert (Hrun : change_system_state env_plain (mk_serial "COM3" 9600) 0
                   (table_of []) 1000000 "log.csv" world0
                 = Ret r (final_world o))
    by (vm_compute; reflexivity).
  exists r, (final_world o). split; [exact Hrun |].
  exact (change_system_state_console env_plain (mk_serial "COM3" 9600) 0 []
           1000000 "log.csv" world0 r (final_world o) Hrun).
Defined.

Lemma change_system_state_shows env ser tg log p wf w t dc l w' :
  change_system_state env ser tg (table_of log) p wf w = Ret (t, dc, l) w' ->
  exists log', dc = table_of log' /\ shows log' w'.
Proof.
  intros H.
  pose proof (change_system_state_ret _ _ _ _ _ _ _ _ _ H) as Hr.
  cbn zeta in Hr. destruct Hr as (_ & Hr & _). injection Hr as _ -> _.
  unfold change_system_state in H.
  step H. step H. step H.
  apply bind_ret in H as (? & ? & Hs & H).
  unfold table_of in Hs. rewrite dict_iadd_timestamp in Hs. simplify_eq.
  step H. step H.
  eexists. split; [reflexivity |].
  unfold state_label.
  destruct (negb (tg =? 0));
    (apply bind_ret in H as (? & ? & Hs & H);
     rewrite dict_iadd_state, table_of_snoc in Hs; simplify_eq;
     apply bind_ret in H as (? & ? & Hs & H);
     rewrite pd_DataFrame_table_of in Hs; simplify_eq;
     step H; step H; step H; step H; prim H; simplify_eq;
     unfold shows; norm_world;
     match goal with
     | |- context [(?A ++ [PrintFrame _]) ++ [PrintStr ?m]] => exists A, m
     end;
     rewrite <- app_assoc; reflexivity).
Qed.

Lemma loop_body_shows env ser p wf s w s' w' :
  (exists log, dic s = table_of log /\ shows log w) ->
  loop_body env ser p wf s w = Ret s' w' ->
  exists log, dic s' = table_of log /\ shows log w'.
Proof.
  intros (log & Hdic & Hsh) H. unfold loop_body in H. rewrite Hdic in H.
  step H.
  apply bind_ret in H as (hit & w1 & Hk & H).
  unfold kbhit in Hk. cbn [key_polls] in Hk.
  destruct (keyboard env (key_polls w)) as [b |] eqn:Hkey; simplify_eq.
  - apply bind_ret in H as (c & w1 & Hg & H).
    unfold getch in Hg. cbn [key_polls] in Hg. rewrite Hkey in Hg.
    simplify_eq.
    match type of H with
    | context [Byte.eqb ?x x30] => destruct (Byte.eqb x x30) eqn:Hb
    end.
    + apply bind_ret in H as ([[t dc] l] & w2 & Hc & H).
      apply change_system_state_shows in Hc as (log' & -> & Hsh').
      prim H. simplify_eq. exists log'. auto.
    + prim H. simplify_eq. exists log. auto.
  - step H. cbn [clock_reads] in H.
    destruct (p * 60 <=? _) eqn:Hel.
    + apply bind_ret in H as ([[t dc] l] & w2 & Hc & H).
      apply change_system_state_shows in Hc as (log' & -> & Hsh').
      prim H. simplify_eq. exists log'. auto.
    + prim H. simplify_eq. exists log. auto.
Qed.

Lemma logger_start_shows env fuel port baud p wf w ser s1 w1 :
  logger_start env fuel port baud p wf w = Ret (ser, s1) w1 ->
  exists log, dic s1 = table_of log /\ shows log w1.
Proof.
  unfold logger_start. intros H.
  step H. step H. step H.
  apply bind_ret in H as (? & wg & _ & H).
  step H.
  apply bind_ret in H as ([[t dc] l] & w2 & Hc & H).
  apply (change_system_state_shows _ _ _ []) in Hc as (log' & -> & Hsh').
  prim H. simplify_eq. exists log'. auto.
Qed.

Lemma logger_finish_console env p wf s w log w' :
  dic s = table_of log ->
  logger_finish env p wf s w = Ret tt w' -> console w' = console w.
Proof.
  unfold logger_finish. intros Hdic H. rewrite Hdic in H.
  step H. step H. step H.
  apply bind_ret in H as (? & ? & Hs & H).
  unfold table_of in Hs. rewrite dict_iadd_timestamp in Hs. simplify_eq.
  apply bind_ret in H as (? & ? & Hs & H).
  rewrite dict_iadd_state, table_of_snoc in Hs. simplify_eq.
  apply bind_ret in H as (? & ? & Hs & H).
  rewrite pd_DataFrame_table_of in Hs. simplify_eq.
  prim H. cases_in H; simplify_eq. reflexivity.
Qed.

(** X17.  The final row is saved but never shown: when [logger] returns,
    the last table on the console is the log file without its last row,
    followed by one message and nothing else. *)
Theorem final_row_not_shown env fuel port baud p wf w0 w :
  logger env fuel port baud p wf w0 = Ret tt w ->
  exists log ts,
    shows log w /\ persisted w wf = records log ++ [[ts; "On"]].
Proof.
  intros H.
  apply logger_ret in H as (ser & s1 & w1 & s2 & w2 & H1 & H2 & H3).
  apply logger_start_shows in H1.
  unfold logger_loop in H2.
  apply (while_ret _ _
           (fun s w => exists log, dic s = table_of log /\ shows log w))
    in H2 as [(log & Hdic & Hsh) _];
    [| intros; eapply loop_body_shows; eauto | exact H1].
  pose proof (logger_finish_console _ _ _ _ _ _ _ Hdic H3) as Hcon.
  apply (logger_finish_ret _ _ _ _ _ _ _ Hdic) in H3. cbn zeta in H3.
  destruct H3 as (_ & _ & Hf & _).
  eexists log, _. split.
  - unfold shows in *. rewrite Hcon. exact Hsh.
  - rewrite (persisted_insert _ _ _ _ Hf). unfold records.
    rewrite map_app. reflexivity.
Qed.

Lemma final_row_not_shown_witness :
  exists log ts,
    shows log (final_world run_keys) /\
    persisted (final_world run_keys) "log.csv"
    = records log ++ [[ts; "On"]].
Proof.
  assert (Hrun : run_keys = Ret tt (final_world run_keys))
    by (vm_compute; reflexivity).
  exact (final_row_not_shown env_keys 30 "COM3" 9600 1000000 "log.csv" world0
           (final_world run_keys) Hrun).
Defined.
